(** * Serializers of the point-of-sale backend (api/serializers.py)

    A shallow embedding of the business rules that live in the create and
    validate paths of the serializers: stock deduction on product creation
    and on sale creation, quantity normalisation of inventory changes, and
    the purchase and order totals.

    Conventions of the embedding.
    - Exceptions are values: a function that can raise returns [result A].
    - The database is an explicit record [Db] that is threaded through the
      calls; [transaction.atomic()] restores the record it was entered with
      when its body raises.
    - Python strings are sequences of code points below 256
      ([String.string]).
    - [decimal.Decimal] is modelled with its finite values, its infinities
      and its NaNs; arithmetic on finite values is exact (the context
      precision of 28 digits and the exponent bounds are not modelled, and
      neither are the sign of a zero and the payload of a NaN).
    - Floats are outside the model. *)

From Stdlib Require Import ZArith Ascii String List Lia.
From stdpp Require Import gmap strings list fin_maps.

Local Open Scope Z_scope.

(** ** Exceptions *)

(** The text of a [serializers.ValidationError], kept structured: the
    f-strings of the source interpolate exactly the values stored here. *)
Inductive message : Type :=
| NameRequired          (* "El nombre del producto es obligatorio." *)
| PriceNotPositive      (* "El precio debe ser mayor a 0." *)
| StockNegative         (* "El stock no puede ser negativo." *)
| ThresholdNegative     (* "El umbral de stock bajo no puede ser negativo." *)
| InsufficientIngredient (name : string) (needed available : Z)
    (* "No hay suficiente stock para el insumo '{name}'. Necesario: .., Disponible: .." *)
| InsufficientStock (name : string) (available required : Z)
    (* "Stock insuficiente para {name}. Disponible: .., Requerido: .." *)
| ProductNotFound (product_id : option Z)
    (* "Producto con ID {product_id} no encontrado" *)
| QuantityRequired      (* {'quantity': 'La cantidad es requerida.'} *)
| QuantityInvalid.      (* {'quantity': 'Cantidad inválida.'} *)

Inductive error : Type :=
| ValidationError (m : message)
| DoesNotExist
| TypeError
| AttributeError
| InvalidOperation.

Inductive result (A : Type) : Type :=
| Ok (a : A)
| Raise (e : error).
Arguments Ok {A} a.
Arguments Raise {A} e.

Definition bind {A B : Type} (r : result A) (k : A → result B) : result B :=
  match r with
  | Ok a => k a
  | Raise e => Raise e
  end.

Notation "'do' x <- r ; k" := (bind r (fun x => k))
  (at level 10, x name, r at level 100, k at level 200).

(** ** Python strings *)

Module PyStr.

Definition code (c : ascii) : Z := Z.of_N (N_of_ascii c).

Definition chars (s : string) : list ascii := list_ascii_of_string s.

(** [str.isspace] on a code point below 256. *)
Definition isspace (c : ascii) : bool :=
  let n := code c in
  ((9 <=? n) && (n <=? 13)) || ((28 <=? n) && (n <=? 32))
  || (n =? 133) || (n =? 160).

Fixpoint lstrip (cs : list ascii) : list ascii :=
  match cs with
  | c :: r => if isspace c then lstrip r else cs
  | [] => []
  end.

(** [cs.strip()] on the characters of a string. *)
Definition strip_chars (cs : list ascii) : list ascii :=
  rev (lstrip (rev (lstrip cs))).

(** [s.strip()] *)
Definition strip (s : string) : string :=
  string_of_list_ascii (strip_chars (chars s)).

End PyStr.

(** ** decimal.Decimal *)

Module Dec.

Inductive decimal : Type :=
| Fin (coef exp : Z)          (* coef * 10^exp *)
| Inf (negative : bool)
| NaN (signaling : bool).

Definition zero : decimal := Fin 0 0.

Definition is_finite (d : decimal) : bool :=
  match d with Fin _ _ => true | _ => false end.

Definition is_nan (d : decimal) : bool :=
  match d with NaN _ => true | _ => false end.

Definition is_snan (d : decimal) : bool :=
  match d with NaN true => true | _ => false end.

(** [bool(d)]: a special value is true, a finite one is true unless its
    coefficient is zero. *)
Definition truthy (d : decimal) : bool :=
  match d with
  | Fin c _ => negb (c =? 0)
  | _ => true
  end.

(** The coefficient of [Fin c e] written at the exponent [m <= e]. *)
Definition align (c e m : Z) : Z := c * 10 ^ (e - m).

(** [a * b]. [None] is a raised [InvalidOperation]: a signalling NaN, or
    an infinity times zero. A quiet NaN propagates. *)
Definition mul (a b : decimal) : option decimal :=
  if is_snan a || is_snan b then None
  else if is_nan a || is_nan b then Some (NaN false)
  else match a, b with
       | Fin ca ea, Fin cb eb => Some (Fin (ca * cb) (ea + eb))
       | Inf sa, Inf sb => Some (Inf (xorb sa sb))
       | Inf sa, Fin cb _ =>
           if cb =? 0 then None else Some (Inf (xorb sa (cb <? 0)))
       | Fin ca _, Inf sb =>
           if ca =? 0 then None else Some (Inf (xorb (ca <? 0) sb))
       | _, _ => Some (NaN false)
       end.

(** [a + b]. [None] is a raised [InvalidOperation]: a signalling NaN, or
    the sum of two infinities of opposite signs. *)
Definition add (a b : decimal) : option decimal :=
  if is_snan a || is_snan b then None
  else if is_nan a || is_nan b then Some (NaN false)
  else match a, b with
       | Fin ca ea, Fin cb eb =>
           let m := Z.min ea eb in
           Some (Fin (align ca ea m + align cb eb m) m)
       | Inf sa, Inf sb => if Bool.eqb sa sb then Some (Inf sa) else None
       | Inf sa, _ => Some (Inf sa)
       | _, Inf sb => Some (Inf sb)
       | _, _ => Some (NaN false)
       end.

(** [a < 0] and [a > 0]: an ordering comparison that involves a NaN
    raises [InvalidOperation]. *)
Definition ltb_zero (a : decimal) : option bool :=
  match a with
  | Fin c _ => Some (c <? 0)
  | Inf s => Some s
  | NaN _ => None
  end.

Definition gtb_zero (a : decimal) : option bool :=
  match a with
  | Fin c _ => Some (0 <? c)
  | Inf s => Some (negb s)
  | NaN _ => None
  end.

(** [abs(a)] on a value that is not a NaN. *)
Definition abs (a : decimal) : decimal :=
  match a with
  | Fin c e => Fin (Z.abs c) e
  | Inf _ => Inf false
  | NaN s => NaN s
  end.


(** *** The constructor [Decimal(s)] on a string *)

Import PyStr.

Definition isdigit (c : ascii) : bool :=
  let n := code c in (48 <=? n) && (n <=? 57).

Definition lower (c : ascii) : ascii :=
  let n := code c in
  if (65 <=? n) && (n <=? 90) then ascii_of_N (Z.to_N (n + 32)) else c.

(** The longest prefix of digits, and what follows it. *)
Fixpoint digits (cs : list ascii) : list ascii * list ascii :=
  match cs with
  | c :: r =>
      if isdigit c then let '(ds, r') := digits r in (c :: ds, r')
      else ([], cs)
  | [] => ([], [])
  end.

(** [int(ds)] on a list of digits. *)
Definition int_of_digits (ds : list ascii) : Z :=
  fold_left (fun acc c => 10 * acc + (code c - 48)) ds 0.

(** The exponent part: nothing, or [E], an optional sign and at least
    one digit up to the end of the string. *)
Definition exponent (cs : list ascii) : option Z :=
  match cs with
  | [] => Some 0
  | c :: r =>
      if Ascii.eqb (lower c) "e" then
        let '(neg, r1) :=
          match r with
          | "-"%char :: r' => (true, r')
          | "+"%char :: r' => (false, r')
          | _ => (false, r)
          end in
        match digits r1 with
        | ([], _) => None
        | (ds, []) => Some (if neg then - int_of_digits ds else int_of_digits ds)
        | (_, _ :: _) => None
        end
      else None
  end.

(** A number: digits with an optional fractional part (at least one
    digit in all) and an optional exponent. *)
Definition number (cs : list ascii) : option (Z * Z) :=
  let '(ip, r1) := digits cs in
  let '(fp, r2) :=
    match r1 with
    | "."%char :: r => digits r
    | _ => ([], r1)
    end in
  match ip ++ fp with
  | [] => None
  | ds =>
      match exponent r2 with
      | Some e => Some (int_of_digits ds, e - Z.of_nat (length fp))
      | None => None
      end
  end.

Definition all_digits (cs : list ascii) : bool := forallb isdigit cs.

(** [Inf], [Infinity], [NaN] and [sNaN], in any case; a NaN may carry
    diagnostic digits. *)
Definition special (neg : bool) (cs : list ascii) : option decimal :=
  let ls := map lower cs in
  if bool_decide (ls = chars "inf") || bool_decide (ls = chars "infinity")
  then Some (Inf neg)
  else if bool_decide (take 3 ls = chars "nan") && all_digits (drop 3 ls)
  then Some (NaN false)
  else if bool_decide (take 4 ls = chars "snan") && all_digits (drop 4 ls)
  then Some (NaN true)
  else None.

(** [Decimal(s)]: surrounding whitespace and all underscores are
    removed, then the numeric-string grammar is matched. [None] is a
    raised [InvalidOperation] (conversion syntax). *)
Definition of_string (s : string) : option decimal :=
  let cs := List.filter (fun c => negb (Ascii.eqb c "_")) (strip_chars (chars s)) in
  let '(neg, r) :=
    match cs with
    | "-"%char :: r => (true, r)
    | "+"%char :: r => (false, r)
    | _ => (false, cs)
    end in
  match number r with
  | Some (c, e) => Some (Fin (if neg then - c else c) e)
  | None => special neg r
  end.

End Dec.

Abbreviation decimal := Dec.decimal.

#[local] Set Warnings "-register-all".

(** ** Python values

    The values a decoded JSON document or a validated field can hold. *)

Inductive pyval : Type :=
| VNone
| VBool (b : bool)
| VInt (z : Z)
| VStr (s : string)
| VDec (d : decimal)
| VList (l : list pyval)
| VDict (kv : list (string * pyval)).

(** [bool(v)] *)
Definition truthy (v : pyval) : bool :=
  match v with
  | VNone => false
  | VBool b => b
  | VInt z => negb (z =? 0)
  | VStr s => negb (String.eqb s "")
  | VDec d => Dec.truthy d
  | VList l => match l with [] => false | _ => true end
  | VDict kv => match kv with [] => false | _ => true end
  end.

(** [a or b] *)
Definition py_or (a b : pyval) : pyval := if truthy a then a else b.

(** [d.get(k)] on the bindings of a dict; a missing key gives [None]. *)
Fixpoint dict_get (kv : list (string * pyval)) (k : string) : pyval :=
  match kv with
  | [] => VNone
  | (k', v) :: r => if String.eqb k' k then v else dict_get r k
  end.

(** [d[k] = v]: the binding is replaced where it stands, or added last. *)
Fixpoint dict_set (kv : list (string * pyval)) (k : string) (v : pyval)
  : list (string * pyval) :=
  match kv with
  | [] => [(k, v)]
  | (k', v') :: r =>
      if String.eqb k' k then (k', v) :: r else (k', v') :: dict_set r k v
  end.

(** [Decimal(str(v))]. [str] of an int is its decimal numeral, [str] of a
    string is the string, and [str] of a Decimal reads back as the same
    Decimal; [str] of [None], of a bool, of a list and of a dict
    (['None'], ['True'], ['[...]'], ['{...}']) is no numeric string.
    [None] is a raised [InvalidOperation]. *)
Definition Decimal_of_str (v : pyval) : option decimal :=
  match v with
  | VInt z => Some (Dec.Fin z 0)
  | VStr s => Dec.of_string s
  | VDec d => Some d
  | VNone | VBool _ | VList _ | VDict _ => None
  end.

(** ** PurchaseSerializer *)

(** The two attributes of a [Purchase] that [get_total] reads. *)
Record Purchase : Type := {
  purchase_items : pyval;
  purchase_total_amount : pyval;
}.

(** [item.get(k)]: only a dict has the method. *)
Definition item_get (item : pyval) (k : string) : result pyval :=
  match item with
  | VDict kv => Ok (dict_get kv k)
  | _ => Raise AttributeError
  end.

(** [item.get('quantity') or item.get('qty') or 0] *)
Definition item_qty (item : pyval) : result pyval :=
  do a <- item_get item "quantity";
  do b <- item_get item "qty";
  Ok (py_or (py_or a b) (VInt 0)).

(** [item.get('unitPrice') or item.get('unit_price') or item.get('price') or 0] *)
Definition item_unit_price (item : pyval) : result pyval :=
  do a <- item_get item "unitPrice";
  do b <- item_get item "unit_price";
  do c <- item_get item "price";
  Ok (py_or (py_or (py_or a b) c) (VInt 0)).

(** The right-hand side and the update of
    [total += Decimal(str(qty)) * Decimal(str(unit_price))]; [None] is an
    exception raised inside the [try]. *)
Definition add_line (total : decimal) (qty unit_price : pyval) : option decimal :=
  q ← Decimal_of_str qty;
  p ← Decimal_of_str unit_price;
  x ← Dec.mul q p;
  Dec.add total x.

(** One iteration of the loop of [get_total]: the two reads are outside
    the [try], the arithmetic is inside it and an exception there leaves
    [total] as it was. *)
Definition get_total_step (total : decimal) (item : pyval) : result decimal :=
  do qty <- item_qty item;
  do unit_price <- item_unit_price item;
  Ok (default total (add_line total qty unit_price)).

Fixpoint get_total_loop (total : decimal) (items : list pyval) : result decimal :=
  match items with
  | [] => Ok total
  | item :: rest =>
      do total' <- get_total_step total item;
      get_total_loop total' rest
  end.

(** [PurchaseSerializer.get_total] *)
Definition get_total (obj : Purchase) : result pyval :=
  match purchase_items obj with
  | VList items =>
      do total <- get_total_loop Dec.zero items;
      Ok (VDec total)
  | _ => Ok (purchase_total_amount obj)
  end.

(** ** InventoryChangeSerializer *)

Definition is_Salida (v : pyval) : bool :=
  match v with
  | VStr s => String.eqb s "Salida"
  | _ => false
  end.

(** [InventoryChangeSerializer.validate]. [instance_type] is
    [getattr(self.instance, 'type', None)]. *)
Definition validate (instance_type : pyval) (attrs : list (string * pyval))
  : result (list (string * pyval)) :=
  let change_type := py_or (dict_get attrs "type") instance_type in
  let qty := dict_get attrs "quantity" in
  match qty with
  | VNone => Raise (ValidationError QuantityRequired)
  | _ =>
      match Decimal_of_str qty with
      | None => Raise (ValidationError QuantityInvalid)
      | Some qty_decimal =>
          (* if change_type == 'Salida' and qty_decimal > 0: pass *)
          do _ <- (if is_Salida change_type
                   then match Dec.gtb_zero qty_decimal with
                        | Some _ => Ok tt
                        | None => Raise InvalidOperation
                        end
                   else Ok tt);
          match Dec.ltb_zero qty_decimal with
          | None => Raise InvalidOperation
          | Some true => Ok (dict_set attrs "quantity" (VDec (Dec.abs qty_decimal)))
          | Some false => Ok (dict_set attrs "quantity" (VDec qty_decimal))
          end
      end
  end.

(** ** The database

    Modelled from the spec: the model classes of [api/models.py], which is
    not part of the source tree. A [Product] has a name, a price, a stock
    quantity and a low-stock threshold; numeric columns are integers.
    Columns that no rule of the serializers reads (description, category,
    unit of a product, timestamps, users) are left out. *)

Record Product : Type := {
  product_name : string;
  product_price : Z;
  product_stock : Z;
  product_low_stock_threshold : Z;
  product_is_ingredient : bool;
}.

(** A model instance held in memory: the primary key it was loaded or
    created with, and the column values it had at that moment. *)
Record Instance (A : Type) : Type := {
  pk : Z;
  fields : A;
}.
Arguments pk {A} _.
Arguments fields {A} _.

Record RecipeIngredient : Type := {
  recipe_product : Z;
  recipe_ingredient : option Z;
  recipe_quantity : option Z;
  recipe_unit : string;
}.

Record Sale : Type := {
  sale_total_amount : Z;
  sale_payment_method : string;
}.

Record SaleItem : Type := {
  saleitem_sale : Z;
  saleitem_product : Z;
  saleitem_quantity : Z;
  saleitem_price : option Z;
}.

Record Order : Type := {
  order_customer_name : string;
  order_total_amount : Z;
}.

Record OrderItem : Type := {
  orderitem_order : Z;
  orderitem_product_name : string;
  orderitem_quantity : Z;
  orderitem_unit_price : Z;
  orderitem_total : Z;
}.

Record Db : Type := {
  products : gmap Z Product;
  recipe_ingredients : list RecipeIngredient;
  sales : gmap Z Sale;
  sale_items : list SaleItem;
  orders : gmap Z Order;
  order_items : list OrderItem;
}.

Definition empty_db : Db :=
  {| products := ∅; recipe_ingredients := []; sales := ∅; sale_items := [];
     orders := ∅; order_items := [] |}.

Definition set_products (f : gmap Z Product → gmap Z Product) (db : Db) : Db :=
  {| products := f (products db); recipe_ingredients := recipe_ingredients db;
     sales := sales db; sale_items := sale_items db;
     orders := orders db; order_items := order_items db |}.

Definition set_recipe_ingredients
  (f : list RecipeIngredient → list RecipeIngredient) (db : Db) : Db :=
  {| products := products db; recipe_ingredients := f (recipe_ingredients db);
     sales := sales db; sale_items := sale_items db;
     orders := orders db; order_items := order_items db |}.

Definition set_sales (f : gmap Z Sale → gmap Z Sale) (db : Db) : Db :=
  {| products := products db; recipe_ingredients := recipe_ingredients db;
     sales := f (sales db); sale_items := sale_items db;
     orders := orders db; order_items := order_items db |}.

Definition set_sale_items (f : list SaleItem → list SaleItem) (db : Db) : Db :=
  {| products := products db; recipe_ingredients := recipe_ingredients db;
     sales := sales db; sale_items := f (sale_items db);
     orders := orders db; order_items := order_items db |}.

Definition set_orders (f : gmap Z Order → gmap Z Order) (db : Db) : Db :=
  {| products := products db; recipe_ingredients := recipe_ingredients db;
     sales := sales db; sale_items := sale_items db;
     orders := f (orders db); order_items := order_items db |}.

Definition set_order_items (f : list OrderItem → list OrderItem) (db : Db) : Db :=
  {| products := products db; recipe_ingredients := recipe_ingredients db;
     sales := sales db; sale_items := sale_items db;
     orders := orders db; order_items := f (order_items db) |}.

(** The primary key given to a new row: one above the largest in use. *)
Definition next_pk {A : Type} (table : gmap Z A) : Z :=
  1 + map_fold (fun k _ acc => Z.max k acc) 0 table.

(** ** Requests

    A piece of serializer code is a function from the database to the
    database it leaves and the value it returns or the exception it
    raises. What was written before an exception stays written, as under
    the autocommit of the framework, unless a transaction undoes it. *)

Definition M (A : Type) : Type := Db → Db * result A.

Definition ret {A : Type} (a : A) : M A := fun db => (db, Ok a).

Definition raise {A : Type} (e : error) : M A := fun db => (db, Raise e).

Definition and_then {A B : Type} (m : M A) (k : A → M B) : M B :=
  fun db =>
    match m db with
    | (db', Ok a) => k a db'
    | (db', Raise e) => (db', Raise e)
    end.

Notation "'run' x <- m ; k" := (and_then m (fun x => k))
  (at level 10, x name, m at level 100, k at level 200).

(** [for x in xs: body(x)] *)
Fixpoint for_each {A : Type} (body : A → M unit) (xs : list A) : M unit :=
  match xs with
  | [] => ret tt
  | x :: rest => run _ <- body x; for_each body rest
  end.

(** [with transaction.atomic(): body]: when the body raises, every write
    it made is undone and the exception goes on to the caller. *)
Definition atomic {A : Type} (body : M A) : M A :=
  fun db =>
    match body db with
    | (db', Ok a) => (db', Ok a)
    | (_, Raise e) => (db, Raise e)
    end.

(** [try: body except Product.DoesNotExist: handler] *)
Definition except_DoesNotExist {A : Type} (body handler : M A) : M A :=
  fun db =>
    match body db with
    | (db', Raise DoesNotExist) => handler db'
    | outcome => outcome
    end.

(** *** The calls to the object-relational mapper *)

(** [Product.objects.create] *)
Definition Product_objects_create (row : Product) : M (Instance Product) :=
  fun db =>
    let id := next_pk (products db) in
    (set_products <[id := row]> db, Ok {| pk := id; fields := row |}).

(** [Product.objects.get(pk=id)], also behind [select_for_update()]: the
    row lock matters between concurrent requests only. *)
Definition Product_objects_get (id : option Z) : M (Instance Product) :=
  fun db =>
    match id ≫= (fun i => (fun row => {| pk := i; fields := row |})
                            <$> products db !! i) with
    | Some obj => (db, Ok obj)
    | None => (db, Raise DoesNotExist)
    end.

(** [obj.save()] on a product *)
Definition Product_save (obj : Instance Product) : M unit :=
  fun db => (set_products <[pk obj := fields obj]> db, Ok tt).

(** [RecipeIngredient.objects.create(...)] *)
Definition RecipeIngredient_objects_create (row : RecipeIngredient) : M unit :=
  fun db => (set_recipe_ingredients (fun rows => rows ++ [row]) db, Ok tt).

(** [Sale.objects.create] *)
Definition Sale_objects_create (row : Sale) : M (Instance Sale) :=
  fun db =>
    let id := next_pk (sales db) in
    (set_sales <[id := row]> db, Ok {| pk := id; fields := row |}).

(** [SaleItem.objects.create(...)] *)
Definition SaleItem_objects_create (row : SaleItem) : M unit :=
  fun db => (set_sale_items (fun rows => rows ++ [row]) db, Ok tt).

(** [Order.objects.create] *)
Definition Order_objects_create (row : Order) : M (Instance Order) :=
  fun db =>
    let id := next_pk (orders db) in
    (set_orders <[id := row]> db, Ok {| pk := id; fields := row |}).

(** [obj.save()] on an order *)
Definition Order_save (obj : Instance Order) : M unit :=
  fun db => (set_orders <[pk obj := fields obj]> db, Ok tt).

(** [OrderItem.objects.create(...)] *)
Definition OrderItem_objects_create (row : OrderItem) : M unit :=
  fun db => (set_order_items (fun rows => rows ++ [row]) db, Ok tt).

(** ** ProductSerializer *)

(** One entry of [recipe_ingredients] after field validation: the
    ingredient is a loaded [Product] instance or [None]. *)
Record RecipeItemData : Type := {
  item_ingredient : option (Instance Product);
  item_quantity : option Z;
  item_unit : string;
}.

(** The payload of [ProductSerializer]; [stock] and [recipe_ingredients]
    may be missing from it. *)
Record ProductData : Type := {
  data_name : string;
  data_price : Z;
  data_stock : option Z;
  data_low_stock_threshold : Z;
  data_is_ingredient : bool;
  data_recipe_ingredients : option (list RecipeItemData);
}.

(** [ProductSerializer.get_estado] *)
Definition get_estado (obj : Product) : string :=
  if 0 <? product_stock obj then "Activo" else "Inactivo".

(** [ProductSerializer.validate_name] *)
Definition validate_name (value : string) : result string :=
  if String.eqb value "" || String.eqb (PyStr.strip value) ""
  then Raise (ValidationError NameRequired)
  else Ok (PyStr.strip value).

(** [ProductSerializer.validate_price] *)
Definition validate_price (value : Z) : result Z :=
  if value <=? 0 then Raise (ValidationError PriceNotPositive) else Ok value.

(** [ProductSerializer.validate_stock] *)
Definition validate_stock (value : Z) : result Z :=
  if value <? 0 then Raise (ValidationError StockNegative) else Ok value.

(** [ProductSerializer.validate_low_stock_threshold] *)
Definition validate_low_stock_threshold (value : Z) : result Z :=
  if value <? 0 then Raise (ValidationError ThresholdNegative) else Ok value.

(** The field validators as the framework runs them before [create]: one
    per field present in the payload, each replacing the value by what it
    returns. (The framework reports all failures at once; here the first
    one stands for them.) *)
Definition run_validation (data : ProductData) : result ProductData :=
  do name <- validate_name (data_name data);
  do price <- validate_price (data_price data);
  do stock <- match data_stock data with
              | Some s => do s' <- validate_stock s; Ok (Some s')
              | None => Ok None
              end;
  do threshold <- validate_low_stock_threshold (data_low_stock_threshold data);
  Ok {| data_name := name; data_price := price; data_stock := stock;
        data_low_stock_threshold := threshold;
        data_is_ingredient := data_is_ingredient data;
        data_recipe_ingredients := data_recipe_ingredients data |}.

Definition set_stock (s : Z) (p : Product) : Product :=
  {| product_name := product_name p; product_price := product_price p;
     product_stock := s;
     product_low_stock_threshold := product_low_stock_threshold p;
     product_is_ingredient := product_is_ingredient p |}.

(** The row of [RecipeIngredient.objects.create(product=product, **item_data)]. *)
Definition recipe_link (product : Z) (item_data : RecipeItemData) : RecipeIngredient :=
  {| recipe_product := product;
     recipe_ingredient := pk <$> item_ingredient item_data;
     recipe_quantity := item_quantity item_data;
     recipe_unit := item_unit item_data |}.

(** The body of the deduction loop of [ProductSerializer.create]. *)
Definition deduct_ingredient (initial_stock : Z) (item_data : RecipeItemData)
  : M unit :=
  match item_ingredient item_data, item_quantity item_data with
  | Some ingredient, Some quantity_per_unit =>
      if (quantity_per_unit =? 0) || (quantity_per_unit <=? 0) then ret tt
      else
        let total_ingredient_needed := quantity_per_unit * initial_stock in
        run ingredient_to_update <- Product_objects_get (Some (pk ingredient));
        if product_stock (fields ingredient_to_update) <? total_ingredient_needed
        then raise (ValidationError
                      (InsufficientIngredient
                         (product_name (fields ingredient))
                         total_ingredient_needed
                         (product_stock (fields ingredient_to_update))))
        else Product_save
               {| pk := pk ingredient_to_update;
                  fields := set_stock (product_stock (fields ingredient_to_update)
                                       - total_ingredient_needed)
                                      (fields ingredient_to_update) |}
  | _, _ => ret tt
  end.

Section ProductCreate.

(** The default of the [stock] column, used by [Product.objects.create]
    when the payload has no stock. It is declared in [models.py], outside
    the source tree. *)
Variable stock_default : Z.

(** The block under [with transaction.atomic()]. *)
Definition create_body (validated_data : ProductData) : M (Instance Product) :=
  let recipe_data := default [] (data_recipe_ingredients validated_data) in
  let initial_stock := default 0 (data_stock validated_data) in
  run product <-
    Product_objects_create
      {| product_name := data_name validated_data;
         product_price := data_price validated_data;
         product_stock := default stock_default (data_stock validated_data);
         product_low_stock_threshold := data_low_stock_threshold validated_data;
         product_is_ingredient := data_is_ingredient validated_data |};
  run _ <-
    for_each (fun item_data =>
                RecipeIngredient_objects_create (recipe_link (pk product) item_data))
             recipe_data;
  run _ <-
    (if 0 <? initial_stock
     then for_each (deduct_ingredient initial_stock) recipe_data
     else ret tt);
  ret product.

(** [ProductSerializer.create] *)
Definition ProductSerializer_create (validated_data : ProductData)
  : M (Instance Product) :=
  atomic (create_body validated_data).

(** Validation followed by [create], as [serializer.save()] runs them. *)
Definition ProductSerializer_save (data : ProductData) : M (Instance Product) :=
  match run_validation data with
  | Ok validated_data => ProductSerializer_create validated_data
  | Raise e => raise e
  end.

End ProductCreate.

(** ** SaleSerializer *)

(** One entry of [items]: a decoded JSON object whose three values are
    integers or missing. *)
Record SaleItemData : Type := {
  item_product_id : option Z;
  item_sale_quantity : option Z;
  item_price : option Z;
}.

Record SaleData : Type := {
  data_total_amount : Z;
  data_payment_method : string;
  data_items : option (list SaleItemData);
}.

(** The body of the loop of [SaleSerializer.create]. A missing quantity
    makes the comparison with the stock raise [TypeError]. *)
Definition sell_item (sale : Instance Sale) (item_data : SaleItemData) : M unit :=
  let product_id := item_product_id item_data in
  let quantity := item_sale_quantity item_data in
  let price := item_price item_data in
  except_DoesNotExist
    (run product <- Product_objects_get product_id;
     match quantity with
     | None => raise TypeError
     | Some quantity =>
         if product_stock (fields product) <? quantity
         then raise (ValidationError
                       (InsufficientStock (product_name (fields product))
                          (product_stock (fields product)) quantity))
         else
           run _ <- SaleItem_objects_create
                      {| saleitem_sale := pk sale;
                         saleitem_product := pk product;
                         saleitem_quantity := quantity;
                         saleitem_price := price |};
           Product_save
             {| pk := pk product;
                fields := set_stock (product_stock (fields product) - quantity)
                                    (fields product) |}
     end)
    (raise (ValidationError (ProductNotFound product_id))).

(** [SaleSerializer.create]; there is no transaction in it. *)
Definition SaleSerializer_create (validated_data : SaleData) : M (Instance Sale) :=
  let items_data := default [] (data_items validated_data) in
  run sale <-
    Sale_objects_create
      {| sale_total_amount := data_total_amount validated_data;
         sale_payment_method := data_payment_method validated_data |};
  run _ <- for_each (sell_item sale) items_data;
  ret sale.

(** ** OrderSerializer *)

(** One validated entry of [items]; each key may be missing. *)
Record OrderItemData : Type := {
  entry_product_name : option string;
  entry_quantity : option Z;
  entry_unit_price : option Z;
}.

Record OrderData : Type := {
  data_customer_name : string;
  data_order_total_amount : option Z;
  data_order_items : option (list OrderItemData);
}.

(** The loop of [OrderSerializer.create]: one [OrderItem] per entry, and
    the running total. *)
Fixpoint order_lines (order : Instance Order) (items_data : list OrderItemData)
  (total : Z) : M Z :=
  match items_data with
  | [] => ret total
  | item :: rest =>
      let qty := default 1 (entry_quantity item) in
      let unit := default 0 (entry_unit_price item) in
      let line_total := qty * unit in
      run _ <- OrderItem_objects_create
                 {| orderitem_order := pk order;
                    orderitem_product_name := default "" (entry_product_name item);
                    orderitem_quantity := qty;
                    orderitem_unit_price := unit;
                    orderitem_total := line_total |};
      order_lines order rest (total + line_total)
  end.

Definition set_total_amount (t : Z) (o : Order) : Order :=
  {| order_customer_name := order_customer_name o; order_total_amount := t |}.

Section OrderCreate.

(** The default of the [total_amount] column of [Order], declared in
    [models.py], outside the source tree. *)
Variable total_amount_default : Z.

(** [OrderSerializer.create] *)
Definition OrderSerializer_create (validated_data : OrderData) : M (Instance Order) :=
  let items_data := default [] (data_order_items validated_data) in
  run order <-
    Order_objects_create
      {| order_customer_name := data_customer_name validated_data;
         order_total_amount :=
           default total_amount_default (data_order_total_amount validated_data) |};
  run total <- order_lines order items_data 0;
  let order' := {| pk := pk order;
                   fields := set_total_amount total (fields order) |} in
  run _ <- Order_save order';
  ret order'.

End OrderCreate.

(** What [OrderSerializer] shows of a stored order: [total_amount] is a
    plain model field of [Meta.fields], so it is the stored column, and
    [items] are the order's rows of [OrderItem]. *)
Record OrderRepresentation : Type := {
  repr_customer_name : string;
  repr_total_amount : Z;
  repr_items : list OrderItem;
}.

Definition OrderSerializer_to_representation (db : Db) (order : Z)
  : option OrderRepresentation :=
  o ← orders db !! order;
  Some {| repr_customer_name := order_customer_name o;
          repr_total_amount := order_total_amount o;
          repr_items :=
            List.filter (fun r => orderitem_order r =? order) (order_items db) |}.

(** ** Sequences of requests on the stock *)

Inductive operation : Type :=
| CreateProduct (data : ProductData)
| CreateSale (data : SaleData).

Section Run.

Variable stock_default : Z.

(** The database after one request, whether it succeeded or raised. *)
Definition run_operation (db : Db) (op : operation) : Db :=
  match op with
  | CreateProduct data => fst (ProductSerializer_save stock_default data db)
  | CreateSale data => fst (SaleSerializer_create data db)
  end.

Definition run_operations (db : Db) (ops : list operation) : Db :=
  fold_left run_operation ops db.

End Run.

(** Every stored product has a stock that is not negative. *)
Definition stock_nonneg (db : Db) : Prop :=
  map_Forall (fun _ p => 0 <= product_stock p) (products db).

(** ** What the recipe rules promise

    The quantities below are written from the contract of product
    creation, not from the loop that implements it. *)

(** What one recipe line takes from product [id] when [initial_stock]
    units are created: [quantity * initial_stock] if the line names [id]
    as its ingredient with a positive quantity, nothing otherwise. *)
Definition line_deduction (initial_stock id : Z) (item_data : RecipeItemData) : Z :=
  match item_ingredient item_data, item_quantity item_data with
  | Some ingredient, Some quantity =>
      if bool_decide (pk ingredient = id) && (0 <? quantity)
      then quantity * initial_stock else 0
  | _, _ => 0
  end.

(** What the whole recipe takes from product [id]. *)
Definition total_needed (initial_stock : Z) (recipe : list RecipeItemData)
  (id : Z) : Z :=
  foldr (fun item_data acc => line_deduction initial_stock id item_data + acc)
        0 recipe.

(** Every ingredient of the recipe is a stored product. *)
Definition recipe_resolves (db : Db) (recipe : list RecipeItemData) : Prop :=
  Forall (fun item_data =>
            ∀ ingredient, item_ingredient item_data = Some ingredient →
                          is_Some (products db !! pk ingredient)) recipe.

(** Every product has at least what the recipe takes from it. *)
Definition sufficient (db : Db) (initial_stock : Z)
  (recipe : list RecipeItemData) : Prop :=
  map_Forall (fun id p => total_needed initial_stock recipe id <= product_stock p)
             (products db).


(** ** What the sale rules promise *)

(** The sale item stored for a line records what the line submitted. *)
Definition records (sale : Z) (line : SaleItemData) (row : SaleItem) : Prop :=
  saleitem_sale row = sale ∧
  item_product_id line = Some (saleitem_product row) ∧
  item_sale_quantity line = Some (saleitem_quantity row) ∧
  saleitem_price row = item_price line.

(** The line asks for a stored product that has at least the quantity. *)
Definition in_stock (db : Db) (line : SaleItemData) : Prop :=
  ∃ id q p, item_product_id line = Some id ∧
            item_sale_quantity line = Some q ∧
            products db !! id = Some p ∧ q <= product_stock p.

(** ** What the totals promise *)

(** A finite decimal as the pair of its coefficient and its exponent. *)
Definition fin (x : Z * Z) : decimal := Dec.Fin (fst x) (snd x).

(** Exact sum and product of two finite decimals. *)
Definition fin_plus (a b : Z * Z) : Z * Z :=
  let m := Z.min (snd a) (snd b) in
  (Dec.align (fst a) (snd a) m + Dec.align (fst b) (snd b) m, m).

Definition fin_times (a b : Z * Z) : Z * Z := (fst a * fst b, snd a + snd b).

(** The value an item holds under the first of [keys] where it holds one
    that counts (a value that is not missing, zero, empty or false), or 0. *)
Fixpoint read_first (kv : list (string * pyval)) (keys : list string) : pyval :=
  match keys with
  | [] => VInt 0
  | k :: ks => if truthy (dict_get kv k) then dict_get kv k else read_first kv ks
  end.

Definition spec_quantity (kv : list (string * pyval)) : pyval :=
  read_first kv ["quantity"; "qty"]%string.

Definition spec_unit_price (kv : list (string * pyval)) : pyval :=
  read_first kv ["unitPrice"; "unit_price"; "price"]%string.

(** The value reads as a number (finite) or does not read as a Decimal at
    all: it is no NaN and no infinity. *)
Definition plain (v : pyval) : Prop :=
  match Decimal_of_str v with
  | Some d => Dec.is_finite d = true
  | None => True
  end.

(** A purchase line: a JSON object whose quantity and unit price are
    plain. *)
Definition plain_item (item : pyval) : Prop :=
  ∃ kv, item = VDict kv ∧ plain (spec_quantity kv) ∧ plain (spec_unit_price kv).

(** Quantity times unit price of a line, when both read as numbers. *)
Definition spec_line (item : pyval) : option (Z * Z) :=
  match item with
  | VDict kv =>
      match Decimal_of_str (spec_quantity kv), Decimal_of_str (spec_unit_price kv) with
      | Some (Dec.Fin cq eq), Some (Dec.Fin cp ep) =>
          Some (fin_times (cq, eq) (cp, ep))
      | _, _ => None
      end
  | _ => None
  end.


(** The sum of quantity times unit price over the entries of an order; an
    entry without quantity counts for 1 unit, one without unit price for a
    price of 0. *)
Definition spec_order_total (items : list OrderItemData) : Z :=
  foldr (fun item acc =>
           default 1 (entry_quantity item) * default 0 (entry_unit_price item)
           + acc) 0 items.

(** ** What product validation promises *)

(** The payload passes the four field validators. *)
Definition valid_payload (data : ProductData) : Prop :=
  PyStr.strip (data_name data) ≠ ""%string ∧
  0 < data_price data ∧
  (∀ s, data_stock data = Some s → 0 <= s) ∧
  0 <= data_low_stock_threshold data.

(** ** Example data *)

Definition harina : Product :=
  {| product_name := "Harina"; product_price := 5; product_stock := 10;
     product_low_stock_threshold := 1; product_is_ingredient := true |}.

Definition sal : Product :=
  {| product_name := "Sal"; product_price := 3; product_stock := 0;
     product_low_stock_threshold := 1; product_is_ingredient := true |}.

(** Two products: 10 units of the first, none of the second. *)
Definition shop : Db := set_products (fun _ => <[1 := harina]> (<[2 := sal]> ∅)) empty_db.

(** A sale of 2 units of product 1, then 1 unit of product 2. *)
Definition sale_two_lines : SaleData :=
  {| data_total_amount := 21; data_payment_method := "efectivo";
     data_items :=
       Some [ {| item_product_id := Some 1; item_sale_quantity := Some 2;
                 item_price := Some 7 |};
              {| item_product_id := Some 2; item_sale_quantity := Some 1;
                 item_price := Some 7 |} ] |}.

(** A sale of 2 units of product 1, then a line for a product that does
    not exist. *)
Definition sale_unknown_product : SaleData :=
  {| data_total_amount := 14; data_payment_method := "efectivo";
     data_items :=
       Some [ {| item_product_id := Some 1; item_sale_quantity := Some 2;
                 item_price := Some 7 |};
              {| item_product_id := Some 9; item_sale_quantity := Some 1;
                 item_price := Some 7 |} ] |}.

(** The purchase lines [{"quantity": 2, "unitPrice": "3.50"},
    {"qty": 1, "price": "bad"}]. *)
Definition purchase_lines : list pyval :=
  [ VDict [("quantity", VInt 2); ("unitPrice", VStr "3.50")]%string;
    VDict [("qty", VInt 1); ("price", VStr "bad")]%string ].

(** The purchase line {"quantity": 0, "qty": 5, "price": 2}. *)
Definition zero_quantity_line : pyval :=
  VDict [("quantity", VInt 0); ("qty", VInt 5); ("price", VInt 2)]%string.

(** The order entries [{"quantity": 3, "unit_price": 10},
    {"quantity": 2, "unit_price": 5}]. *)
Definition order_entries : list OrderItemData :=
  [ {| entry_product_name := Some "Pan"%string; entry_quantity := Some 3;
       entry_unit_price := Some 10 |};
    {| entry_product_name := Some "Leche"%string; entry_quantity := Some 2;
       entry_unit_price := Some 5 |} ].

Definition order_example : OrderData :=
  {| data_customer_name := "Ana"; data_order_total_amount := None;
     data_order_items := Some order_entries |}.

(** A product with a recipe that takes 1 unit of product 2 per unit made,
    created with a stock of 3. *)
Definition pan_data : ProductData :=
  {| data_name := "Pan"; data_price := 4; data_stock := Some 3;
     data_low_stock_threshold := 0; data_is_ingredient := false;
     data_recipe_ingredients :=
       Some [ {| item_ingredient := Some {| pk := 2; fields := sal |};
                 item_quantity := Some 1; item_unit := "kg" |} ] |}.

(** A product with a recipe of three lines: 2 units of product 1 per
    unit made, a line without ingredient, and a line with quantity 0;
    created with a stock of 3. *)
Definition torta_data : ProductData :=
  {| data_name := " Torta "; data_price := 9; data_stock := Some 3;
     data_low_stock_threshold := 0; data_is_ingredient := false;
     data_recipe_ingredients :=
       Some [ {| item_ingredient := Some {| pk := 1; fields := harina |};
                 item_quantity := Some 2; item_unit := "kg" |};
              {| item_ingredient := None;
                 item_quantity := Some 5; item_unit := "kg" |};
              {| item_ingredient := Some {| pk := 2; fields := sal |};
                 item_quantity := Some 0; item_unit := "g" |} ] |}.

(** A sale of 2 units of product 1 at a price of 7 (the product costs 5). *)
Definition sale_one_line : SaleData :=
  {| data_total_amount := 14; data_payment_method := "efectivo";
     data_items :=
       Some [ {| item_product_id := Some 1; item_sale_quantity := Some 2;
                 item_price := Some 7 |} ] |}.

(** An inventory change of type 'Salida' with quantity "-2.5". *)
Definition salida_attrs : list (string * pyval) :=
  [("type", VStr "Salida"); ("quantity", VStr "-2.5")]%string.

(** ** ProductSerializer.update *)

(** The payload of an update: every field may be missing. *)
Record ProductUpdateData : Type := {
  update_name : option string;
  update_price : option Z;
  update_stock : option Z;
  update_low_stock_threshold : option Z;
  update_is_ingredient : option bool;
  update_recipe_ingredients : option (list RecipeItemData);
}.

(** [super().update(instance, validated_data)] on the attributes: each
    field of the payload replaces the attribute of the instance. *)
Definition apply_update (validated_data : ProductUpdateData) (p : Product)
  : Product :=
  {| product_name := default (product_name p) (update_name validated_data);
     product_price := default (product_price p) (update_price validated_data);
     product_stock := default (product_stock p) (update_stock validated_data);
     product_low_stock_threshold :=
       default (product_low_stock_threshold p)
               (update_low_stock_threshold validated_data);
     product_is_ingredient :=
       default (product_is_ingredient p) (update_is_ingredient validated_data) |}.

(** [instance.recipe.all().delete()]: the recipe rows of the product go. *)
Definition recipe_delete (product : Z) : M unit :=
  fun db =>
    (set_recipe_ingredients
       (List.filter (fun row => negb (recipe_product row =? product))) db,
     Ok tt).

(** [ProductSerializer.update] *)
Definition ProductSerializer_update (instance : Instance Product)
  (validated_data : ProductUpdateData) : M (Instance Product) :=
  let recipe_data := update_recipe_ingredients validated_data in
  let instance := {| pk := pk instance;
                     fields := apply_update validated_data (fields instance) |} in
  run _ <- Product_save instance;
  run _ <-
    match recipe_data with
    | Some recipe_data =>
        run _ <- recipe_delete (pk instance);
        for_each (fun recipe_item_data =>
                    RecipeIngredient_objects_create
                      (recipe_link (pk instance) recipe_item_data))
                 recipe_data
    | None => ret tt
    end;
  ret instance.

(** ** What the further properties speak of *)

Definition is_dict (v : pyval) : bool :=
  match v with VDict _ => true | _ => false end.

(** The recipe rows of one product. *)
Definition recipe_of (product : Z) (db : Db) : list RecipeIngredient :=
  List.filter (fun row => recipe_product row =? product) (recipe_ingredients db).

(** The recipe rows of the other products. *)
Definition recipes_but (product : Z) (db : Db) : list RecipeIngredient :=
  List.filter (fun row => negb (recipe_product row =? product))
              (recipe_ingredients db).

(** The units of product [id] that the lines of a sale ask for. *)
Definition sold (items : list SaleItemData) (id : Z) : Z :=
  foldr (fun line acc =>
           match item_product_id line, item_sale_quantity line with
           | Some i, Some q => if bool_decide (i = id) then q + acc else acc
           | _, _ => acc
           end) 0 items.

(** [db'] has the products of [db], each with the same columns but,
    perhaps, the stock. *)
Definition same_but_stock (db db' : Db) : Prop :=
  ∀ id, match products db !! id, products db' !! id with
        | Some p, Some p' => p' = set_stock (product_stock p') p
        | None, None => True
        | _, _ => False
        end.

(** The row that [OrderSerializer.create] stores for an entry. *)
Definition order_item_row (order : Z) (item : OrderItemData) : OrderItem :=
  {| orderitem_order := order;
     orderitem_product_name := default "" (entry_product_name item);
     orderitem_quantity := default 1 (entry_quantity item);
     orderitem_unit_price := default 0 (entry_unit_price item);
     orderitem_total :=
       default 1 (entry_quantity item) * default 0 (entry_unit_price item) |}.

(** Every stored order item belongs to a stored order. *)
Definition order_items_resolve (db : Db) : Prop :=
  Forall (fun row => is_Some (orders db !! orderitem_order row)) (order_items db).

(** The rows of the products that were stored in [db] are in [cur] with
    the same columns and a stock that is not higher; the other tables of
    [cur] but the recipe links are those of [db]. *)
Definition only_deducted (db cur : Db) : Prop :=
  (∀ id p, products db !! id = Some p →
           ∃ p', products cur !! id = Some p' ∧
                 p' = set_stock (product_stock p') p ∧
                 product_stock p' <= product_stock p) ∧
  sales cur = sales db ∧ sale_items cur = sale_items db ∧
  orders cur = orders db ∧ order_items cur = order_items db.

(** ** Further example data *)

(** A recipe of two lines that each take 6 units of product 1 per unit
    made. *)
Definition doble_data : ProductData :=
  {| data_name := "Doble"; data_price := 2; data_stock := Some 1;
     data_low_stock_threshold := 0; data_is_ingredient := false;
     data_recipe_ingredients :=
       Some [ {| item_ingredient := Some {| pk := 1; fields := harina |};
                 item_quantity := Some 6; item_unit := "kg" |};
              {| item_ingredient := Some {| pk := 1; fields := harina |};
                 item_quantity := Some 6; item_unit := "kg" |} ] |}.

(** A sale with two lines for product 1 (3 units and 4 units). *)
Definition sale_same_product : SaleData :=
  {| data_total_amount := 35; data_payment_method := "tarjeta";
     data_items :=
       Some [ {| item_product_id := Some 1; item_sale_quantity := Some 3;
                 item_price := Some 5 |};
              {| item_product_id := Some 1; item_sale_quantity := Some 4;
                 item_price := Some 5 |} ] |}.

(** A line that returns 2 units of product 2. *)
Definition return_line : SaleItemData :=
  {| item_product_id := Some 2; item_sale_quantity := Some (-2);
     item_price := Some 3 |}.

(** An update that raises the stock to 50 and replaces the recipe by one
    line. *)
Definition restock : ProductUpdateData :=
  {| update_name := None; update_price := None; update_stock := Some 50;
     update_low_stock_threshold := None; update_is_ingredient := None;
     update_recipe_ingredients :=
       Some [ {| item_ingredient := Some {| pk := 2; fields := sal |};
                 item_quantity := Some 1; item_unit := "g" |} ] |}.

(** * Properties *)

(** ** The Decimal constructor on sample strings *)

Example of_string_samples :
  Dec.of_string "3.50" = Some (Dec.Fin 350 (-2)) ∧
  Dec.of_string "bad" = None ∧
  Dec.of_string " -1_0.e2 " = Some (Dec.Fin (-10) 2) ∧
  Dec.of_string "1E-3" = Some (Dec.Fin 1 (-3)) ∧
  Dec.of_string "+.5e+1" = Some (Dec.Fin 5 0) ∧
  Dec.of_string "1." = Some (Dec.Fin 1 0) ∧
  Dec.of_string "." = None ∧
  Dec.of_string "1e" = None ∧
  Dec.of_string "1 2" = None ∧
  Dec.of_string "" = None ∧
  Dec.of_string "-Infinity" = Some (Dec.Inf true) ∧
  Dec.of_string "inf" = Some (Dec.Inf false) ∧
  Dec.of_string "NaN" = Some (Dec.NaN false) ∧
  Dec.of_string "snan12" = Some (Dec.NaN true) ∧
  Dec.of_string "nanx" = None.
Proof. vm_compute. by split_and!. Qed.

(** ** Tables and keys *)

Lemma next_pk_above {A : Type} (table : gmap Z A) (k : Z) :
  is_Some (table !! k) → k < next_pk table.
Proof.
  unfold next_pk.
  cut (∀ k, is_Some (table !! k) →
            k <= map_fold (fun k _ acc => Z.max k acc) 0 table).
  { intros H Hk. specialize (H k Hk). lia. }
  clear k.
  apply (map_fold_weak_ind
           (fun r (m : gmap Z A) => ∀ k, is_Some (m !! k) → k <= r)).
  - intros k [x Hx]. by rewrite lookup_empty in Hx.
  - intros i x m r _ IH k Hk.
    destruct (decide (i = k)) as [->|Hne]; [lia|].
    rewrite lookup_insert_ne in Hk by done.
    specialize (IH k Hk). lia.
Qed.

Lemma next_pk_fresh {A : Type} (table : gmap Z A) :
  table !! next_pk table = None.
Proof.
  destruct (table !! next_pk table) eqn:E; [|done].
  assert (next_pk table < next_pk table); [|lia].
  apply next_pk_above. by rewrite E.
Qed.

Lemma set_stock_set_stock (a b : Z) (p : Product) :
  set_stock a (set_stock b p) = set_stock a p.
Proof. done. Qed.

Lemma set_stock_same (p : Product) : set_stock (product_stock p) p = p.
Proof. by destruct p. Qed.

(** ** Loops and loop bodies *)

Lemma for_each_cons {A : Type} (body : A → M unit) (x : A) (rest : list A)
  (db : Db) :
  for_each body (x :: rest) db
  = match body x db with
    | (db', Ok _) => for_each body rest db'
    | (db', Raise e) => (db', Raise e)
    end.
Proof. done. Qed.

(** What every iteration preserves holds when the loop ends or raises. *)
Lemma for_each_invariant {A : Type} (P : Db → Prop) (body : A → M unit)
  (xs : list A) :
  (∀ x db, P db → P (fst (body x db))) →
  ∀ db, P db → P (fst (for_each body xs db)).
Proof.
  intros Hbody. induction xs as [|x rest IH]; intros db Hdb; [done|].
  rewrite for_each_cons. specialize (Hbody x db Hdb).
  destruct (body x db) as [db' [[]|e]]; simpl in *; [by apply IH|done].
Qed.

(** The loop that stores the recipe links. *)
Lemma for_each_recipe_links (product : Z) (recipe : list RecipeItemData) :
  ∀ db,
    for_each (fun item_data =>
                RecipeIngredient_objects_create (recipe_link product item_data))
             recipe db
    = (set_recipe_ingredients
         (fun rows => rows ++ map (recipe_link product) recipe) db, Ok tt).
Proof.
  induction recipe as [|head rest IH]; intros db.
  - destruct db. unfold set_recipe_ingredients. simpl. by rewrite app_nil_r.
  - rewrite for_each_cons. unfold RecipeIngredient_objects_create at 1.
    rewrite IH. destruct db. unfold set_recipe_ingredients. simpl.
    by rewrite <- app_assoc.
Qed.

(** The deduction of one recipe line, case by case. *)
Lemma deduct_ingredient_eq (initial_stock : Z) (item_data : RecipeItemData)
  (db : Db) :
  deduct_ingredient initial_stock item_data db
  = match item_ingredient item_data, item_quantity item_data with
    | Some ingredient, Some q =>
        if (q =? 0) || (q <=? 0) then (db, Ok tt)
        else match products db !! pk ingredient with
             | None => (db, Raise DoesNotExist)
             | Some p =>
                 if product_stock p <? q * initial_stock
                 then (db, Raise (ValidationError
                                    (InsufficientIngredient
                                       (product_name (fields ingredient))
                                       (q * initial_stock) (product_stock p))))
                 else (set_products
                         <[pk ingredient :=
                             set_stock (product_stock p - q * initial_stock) p]> db,
                       Ok tt)
             end
    | _, _ => (db, Ok tt)
    end.
Proof.
  unfold deduct_ingredient.
  destruct (item_ingredient item_data) as [ing|]; [|done].
  destruct (item_quantity item_data) as [q|]; [|done].
  destruct ((q =? 0) || (q <=? 0)); [done|].
  unfold and_then, Product_objects_get. simpl.
  destruct (products db !! pk ing) as [p|]; simpl; [|done].
  by destruct (product_stock p <? q * initial_stock).
Qed.

(** The sale of one line, case by case. *)
Lemma sell_item_eq (sale : Instance Sale) (item_data : SaleItemData) (db : Db) :
  sell_item sale item_data db
  = match item_product_id item_data
          ≫= (fun id => (fun p => (id, p)) <$> products db !! id) with
    | None =>
        (db, Raise (ValidationError (ProductNotFound (item_product_id item_data))))
    | Some (id, p) =>
        match item_sale_quantity item_data with
        | None => (db, Raise TypeError)
        | Some q =>
            if product_stock p <? q
            then (db, Raise (ValidationError
                               (InsufficientStock (product_name p)
                                  (product_stock p) q)))
            else (set_products
                    <[id := set_stock (product_stock p - q) p]>
                    (set_sale_items
                       (fun rows => rows ++ [{| saleitem_sale := pk sale;
                                                saleitem_product := id;
                                                saleitem_quantity := q;
                                                saleitem_price := item_price item_data |}])
                       db),
                  Ok tt)
        end
    end.
Proof.
  unfold sell_item, except_DoesNotExist, and_then, Product_objects_get.
  destruct (item_product_id item_data) as [id|]; simpl; [|done].
  destruct (products db !! id) as [p|]; simpl; [|done].
  destruct (item_sale_quantity item_data) as [q|]; simpl; [|done].
  by destruct (product_stock p <? q).
Qed.

(** ** The stock never goes negative *)

Lemma deduct_ingredient_nonneg (initial_stock : Z) (item_data : RecipeItemData)
  (db : Db) :
  stock_nonneg db →
  stock_nonneg (fst (deduct_ingredient initial_stock item_data db)).
Proof.
  intros Hdb. rewrite deduct_ingredient_eq.
  destruct (item_ingredient item_data) as [ingredient|]; [|done].
  destruct (item_quantity item_data) as [q|]; [|done].
  destruct ((q =? 0) || (q <=? 0)); [done|].
  destruct (products db !! pk ingredient) as [p|] eqn:Hp; [|done].
  destruct (product_stock p <? q * initial_stock) eqn:Hlt; [done|].
  unfold stock_nonneg. simpl. apply map_Forall_insert_2; [simpl; lia|done].
Qed.

Lemma sell_item_nonneg (sale : Instance Sale) (item_data : SaleItemData)
  (db : Db) :
  stock_nonneg db →
  stock_nonneg (fst (sell_item sale item_data db)).
Proof.
  intros Hdb. rewrite sell_item_eq.
  destruct (item_product_id item_data ≫= _) as [[id product]|]; [|done].
  destruct (item_sale_quantity item_data) as [q|]; [|done].
  destruct (product_stock product <? q) eqn:Hlt; [done|].
  unfold stock_nonneg. simpl. apply map_Forall_insert_2; [simpl; lia|done].
Qed.

Lemma create_nonneg (stock_default : Z) (validated_data : ProductData) (db : Db) :
  stock_nonneg db →
  0 <= default stock_default (data_stock validated_data) →
  stock_nonneg (fst (ProductSerializer_create stock_default validated_data db)).
Proof.
  intros Hdb Hnew. unfold ProductSerializer_create, atomic.
  destruct (create_body stock_default validated_data db) as [db' [product|e]] eqn:Hbody;
    [|done].
  simpl. revert Hbody. unfold create_body, and_then, Product_objects_create.
  rewrite for_each_recipe_links.
  set (db2 := set_recipe_ingredients _ _).
  assert (stock_nonneg db2) as Hdb2.
  { subst db2. unfold stock_nonneg. simpl. by apply map_Forall_insert_2. }
  destruct (0 <? default 0 (data_stock validated_data)).
  - pose proof (for_each_invariant stock_nonneg
                  (deduct_ingredient (default 0 (data_stock validated_data)))
                  (default [] (data_recipe_ingredients validated_data))
                  (deduct_ingredient_nonneg _) db2 Hdb2) as Hloop.
    destruct (for_each _ _ db2) as [db3 [[]|e]]; [|done].
    by intros [= <- _].
  - by intros [= <- _].
Qed.

Lemma run_validation_stock (data validated_data : ProductData) (s : Z) :
  run_validation data = Ok validated_data →
  data_stock validated_data = Some s → 0 <= s.
Proof.
  unfold run_validation.
  destruct (validate_name _); simpl; [|done].
  destruct (validate_price _); simpl; [|done].
  destruct (data_stock data) as [s0|]; simpl.
  - unfold validate_stock. destruct (s0 <? 0) eqn:Hs; simpl; [done|].
    destruct (validate_low_stock_threshold _); simpl; [|done].
    intros [= <-]. simpl. intros [= <-]. lia.
  - destruct (validate_low_stock_threshold _); simpl; [|done].
    intros [= <-]. done.
Qed.

Lemma save_nonneg (stock_default : Z) (data : ProductData) (db : Db) :
  0 <= stock_default →
  stock_nonneg db →
  stock_nonneg (fst (ProductSerializer_save stock_default data db)).
Proof.
  intros Hd Hdb. unfold ProductSerializer_save.
  destruct (run_validation data) as [validated_data|e] eqn:Hv; [|done].
  apply create_nonneg; [done|].
  destruct (data_stock validated_data) as [s|] eqn:Hs; simpl; [|done].
  by eapply run_validation_stock.
Qed.

Lemma sale_create_nonneg (validated_data : SaleData) (db : Db) :
  stock_nonneg db →
  stock_nonneg (fst (SaleSerializer_create validated_data db)).
Proof.
  intros Hdb. unfold SaleSerializer_create, and_then, Sale_objects_create.
  set (sale := {| pk := next_pk (sales db) |}).
  set (db1 := set_sales _ db).
  pose proof (for_each_invariant stock_nonneg (sell_item sale)
                (default [] (data_items validated_data))
                (sell_item_nonneg sale) db1 Hdb) as Hloop.
  by destruct (for_each _ _ db1) as [db2 [[]|e]].
Qed.

(** C1. Starting from a database whose stocks are all non-negative, any
    sequence of product creations (with their recipe-driven deductions)
    and sale creations (with their per-item deductions), successful or
    refused, leaves every product's stock non-negative: each deduction is
    made only after the stock was checked to cover it. *)
Theorem stock_never_negative (stock_default : Z) (db : Db)
  (ops : list operation) :
  0 <= stock_default →
  stock_nonneg db →
  stock_nonneg (run_operations stock_default db ops).
Proof.
  intros Hd. revert db. unfold run_operations.
  induction ops as [|op ops IH]; intros db Hdb; simpl; [done|].
  apply IH. destruct op as [data|data]; simpl.
  - by apply save_nonneg.
  - by apply sale_create_nonneg.
Qed.

(** ** Product creation: a refused recipe *)

(** The block under the transaction, with its two loops made explicit. *)
Lemma create_body_eq (stock_default : Z) (validated_data : ProductData) (db : Db) :
  let recipe := default [] (data_recipe_ingredients validated_data) in
  let initial_stock := default 0 (data_stock validated_data) in
  let row :=
    {| product_name := data_name validated_data;
       product_price := data_price validated_data;
       product_stock := default stock_default (data_stock validated_data);
       product_low_stock_threshold := data_low_stock_threshold validated_data;
       product_is_ingredient := data_is_ingredient validated_data |} in
  let product := {| pk := next_pk (products db); fields := row |} in
  let db2 :=
    set_recipe_ingredients
      (fun rows => rows ++ map (recipe_link (pk product)) recipe)
      (set_products <[pk product := row]> db) in
  create_body stock_default validated_data db
  = match (if 0 <? initial_stock
           then for_each (deduct_ingredient initial_stock) recipe db2
           else (db2, Ok tt)) with
    | (db3, Ok _) => (db3, Ok product)
    | (db3, Raise e) => (db3, Raise e)
    end.
Proof.
  intros recipe initial_stock row product db2.
  unfold create_body, and_then, Product_objects_create.
  rewrite for_each_recipe_links. fold recipe initial_stock row. fold db2.
  by destruct (0 <? initial_stock).
Qed.




(** ** Product creation: an accepted recipe *)

Lemma line_deduction_nonneg (initial_stock id : Z) (item_data : RecipeItemData) :
  0 <= initial_stock → 0 <= line_deduction initial_stock id item_data.
Proof.
  intros HS. unfold line_deduction.
  destruct (item_ingredient item_data); [|lia].
  destruct (item_quantity item_data) as [q|]; [|lia].
  destruct (bool_decide _); simpl; [|lia].
  destruct (0 <? q) eqn:Hq; [nia|lia].
Qed.

Lemma total_needed_nonneg (initial_stock : Z) (recipe : list RecipeItemData)
  (id : Z) :
  0 <= initial_stock → 0 <= total_needed initial_stock recipe id.
Proof.
  intros HS. induction recipe as [|head rest IH]; simpl; [lia|].
  pose proof (line_deduction_nonneg initial_stock id head HS). lia.
Qed.

Lemma total_needed_zero_stock (recipe : list RecipeItemData) (id : Z) :
  total_needed 0 recipe id = 0.
Proof.
  induction recipe as [|head rest IH]; simpl; [done|].
  rewrite IH. unfold line_deduction.
  destruct (item_ingredient head); [|done].
  destruct (item_quantity head); [|done].
  destruct (_ && _); lia.
Qed.

Lemma total_needed_unreferenced (initial_stock : Z)
  (recipe : list RecipeItemData) (id : Z) :
  Forall (fun item_data =>
            ∀ ingredient, item_ingredient item_data = Some ingredient →
                          pk ingredient ≠ id) recipe →
  total_needed initial_stock recipe id = 0.
Proof.
  induction 1 as [|head rest Hhead _ IH]; simpl; [done|].
  rewrite IH. unfold line_deduction.
  destruct (item_ingredient head) as [ing|]; [|done].
  destruct (item_quantity head); [|done].
  rewrite bool_decide_eq_false_2; [done|]. by apply Hhead.
Qed.

Lemma recipe_resolves_insert (db : Db) (recipe : list RecipeItemData)
  (id : Z) (p : Product) :
  recipe_resolves db recipe →
  recipe_resolves (set_products <[id := p]> db) recipe.
Proof.
  unfold recipe_resolves. intros Hres. eapply Forall_impl; [exact Hres|].
  intros item_data H ing Hing.
  simpl. destruct (decide (id = pk ing)) as [->|Hne].
  - rewrite lookup_insert_eq. by eexists.
  - rewrite lookup_insert_ne by done. by apply H.
Qed.

(** A line that is skipped takes nothing from any product. *)
Lemma line_deduction_skipped (initial_stock id : Z) (item_data : RecipeItemData) :
  match item_ingredient item_data, item_quantity item_data with
  | Some _, Some q => (q =? 0) || (q <=? 0) = true
  | _, _ => True
  end →
  line_deduction initial_stock id item_data = 0.
Proof.
  unfold line_deduction.
  destruct (item_ingredient item_data); [|done].
  destruct (item_quantity item_data) as [q|]; [|done].
  intros H. destruct (bool_decide _); simpl; [|done].
  destruct (0 <? q) eqn:Hq; [lia|done].
Qed.

Lemma for_each_deduct_exact (initial_stock : Z)
  (recipe : list RecipeItemData) :
  0 < initial_stock →
  ∀ db, recipe_resolves db recipe →
        sufficient db initial_stock recipe →
  ∃ db', for_each (deduct_ingredient initial_stock) recipe db = (db', Ok tt) ∧
         db' = set_products (fun _ => products db') db ∧
         ∀ id, products db' !! id
               = (fun p => set_stock (product_stock p
                                      - total_needed initial_stock recipe id) p)
                   <$> products db !! id.
Proof.
  intros HS. induction recipe as [|head rest IH]; intros db Hres Hsuff.
  { exists db. split_and!; [done|by destruct db|].
    intros id. simpl. destruct (products db !! id) as [p|]; simpl; [|done].
    by rewrite Z.sub_0_r, set_stock_same. }
  apply Forall_cons in Hres as [Hhead Hrest].
  (* a skipped line: the loop goes on from the same database *)
  assert ((∀ id, line_deduction initial_stock id head = 0) →
          deduct_ingredient initial_stock head db = (db, Ok tt) →
          ∃ db', for_each (deduct_ingredient initial_stock) (head :: rest) db
                 = (db', Ok tt) ∧
                 db' = set_products (fun _ => products db') db ∧
                 ∀ id, products db' !! id
                       = (fun p => set_stock
                                     (product_stock p
                                      - total_needed initial_stock (head :: rest) id) p)
                           <$> products db !! id) as Hskipped.
  { intros Hzero Hstep.
    destruct (IH db Hrest) as (db' & Hloop & Hsame & Hstock).
    { intros id p Hp. specialize (Hsuff id p Hp). simpl in Hsuff.
      rewrite Hzero in Hsuff. lia. }
    exists db'. split_and!; [by rewrite for_each_cons, Hstep|done|].
    intros id. rewrite Hstock. simpl. by rewrite Hzero. }
  pose proof (deduct_ingredient_eq initial_stock head db) as Hstep.
  destruct (item_ingredient head) as [ing|] eqn:Hing.
  2:{ apply Hskipped; [|done].
      intros id. apply line_deduction_skipped. by rewrite Hing. }
  destruct (item_quantity head) as [q|] eqn:Hq.
  2:{ apply Hskipped; [|done].
      intros id. apply line_deduction_skipped. by rewrite Hing, Hq. }
  destruct ((q =? 0) || (q <=? 0)) eqn:Hskip.
  { apply Hskipped; [|done].
    intros id. apply line_deduction_skipped. by rewrite Hing, Hq. }
  (* a line that deducts *)
  destruct (Hhead ing eq_refl) as [p Hp]. rewrite Hp in Hstep.
  assert (∀ id, line_deduction initial_stock id head
                = if decide (pk ing = id) then q * initial_stock else 0) as Hline.
  { intros id. unfold line_deduction. rewrite Hing, Hq.
    destruct (decide (pk ing = id)) as [Heq|Hne].
    - rewrite bool_decide_eq_true_2 by done. simpl.
      destruct (0 <? q) eqn:Hpos; [done|lia].
    - by rewrite bool_decide_eq_false_2. }
  pose proof (Hsuff _ _ Hp) as Hsuff_p. simpl in Hsuff_p.
  rewrite Hline in Hsuff_p. rewrite decide_True in Hsuff_p by done.
  pose proof (total_needed_nonneg initial_stock rest (pk ing)) as Hrest_pos.
  destruct (product_stock p <? q * initial_stock) eqn:Hcheck; [lia|].
  set (db1 := set_products
                <[pk ing := set_stock (product_stock p - q * initial_stock) p]> db)
    in Hstep.
  destruct (IH db1) as (db' & Hloop & Hsame & Hstock).
  { by apply recipe_resolves_insert. }
  { intros id p' Hp'. subst db1. simpl in Hp'.
    destruct (decide (pk ing = id)) as [<-|Hne].
    - rewrite lookup_insert_eq in Hp'. injection Hp' as <-. simpl. lia.
    - rewrite lookup_insert_ne in Hp' by done.
      specialize (Hsuff id p' Hp'). simpl in Hsuff.
      rewrite Hline, decide_False in Hsuff by done. lia. }
  exists db'. split_and!.
  - by rewrite for_each_cons, Hstep.
  - rewrite Hsame. by subst db1.
  - intros id. rewrite Hstock. subst db1. simpl. rewrite Hline.
    destruct (decide (pk ing = id)) as [<-|Hne].
    + rewrite lookup_insert_eq, Hp. simpl. f_equal.
      rewrite set_stock_set_stock. f_equal. lia.
    + rewrite lookup_insert_ne by done. done.
Qed.

(** What [create] does when no deduction is refused: the product and all
    its recipe links are stored and every product that was there before
    has lost exactly what the recipe takes from it. *)
Lemma create_succeeds (stock_default : Z) (validated_data : ProductData)
  (db : Db) (recipe : list RecipeItemData) (initial_stock : Z) :
  default [] (data_recipe_ingredients validated_data) = recipe →
  default 0 (data_stock validated_data) = initial_stock →
  0 <= initial_stock →
  recipe_resolves db recipe →
  (0 < initial_stock → sufficient db initial_stock recipe) →
  ∃ db' product,
    ProductSerializer_create stock_default validated_data db = (db', Ok product) ∧
    pk product = next_pk (products db) ∧
    product_name (fields product) = data_name validated_data ∧
    product_stock (fields product)
    = default stock_default (data_stock validated_data) ∧
    products db' !! pk product = Some (fields product) ∧
    recipe_ingredients db'
    = recipe_ingredients db ++ map (recipe_link (pk product)) recipe ∧
    ∀ id p, products db !! id = Some p →
            products db' !! id
            = Some (set_stock (product_stock p
                               - total_needed initial_stock recipe id) p).
Proof.
  intros Hrecipe HS HSpos Hres Hsuff.
  unfold ProductSerializer_create, atomic. rewrite create_body_eq.
  rewrite Hrecipe, HS. simpl.
  set (row := {| product_name := data_name validated_data |}).
  set (db2 := set_recipe_ingredients _ _).
  pose proof (next_pk_fresh (products db)) as Hfresh.
  assert (∀ id p, products db !! id = Some p → products db2 !! id = Some p)
    as Hold.
  { intros id p Hp. subst db2. simpl. rewrite lookup_insert_ne; [done|].
    intros Heq. rewrite Heq in Hfresh. congruence. }
  assert (products db2 !! next_pk (products db) = Some row) as Hnew.
  { subst db2. simpl. apply lookup_insert_eq. }
  assert (Forall (fun item_data =>
                    ∀ ingredient, item_ingredient item_data = Some ingredient →
                                  pk ingredient ≠ next_pk (products db)) recipe)
    as Hunref.
  { eapply Forall_impl; [exact Hres|]. intros item_data H ing Hing Heq.
    destruct (H ing Hing) as [p Hp]. rewrite Heq in Hp. congruence. }
  destruct (0 <? initial_stock) eqn:Hpos.
  - destruct (for_each_deduct_exact initial_stock recipe) with (db := db2)
      as (db' & Hloop & Hsame & Hstock).
    + lia.
    + eapply Forall_impl; [exact Hres|]. intros item_data H ing Hing.
      destruct (H ing Hing) as [p Hp]. exists p. by apply Hold.
    + intros id p Hp. subst db2. simpl in Hp.
      destruct (decide (next_pk (products db) = id)) as [<-|Hne].
      * rewrite total_needed_unreferenced by done.
        rewrite lookup_insert_eq in Hp. injection Hp as <-. simpl.
        destruct (data_stock validated_data); simpl in *; lia.
      * rewrite lookup_insert_ne in Hp by done.
        apply (Hsuff ltac:(lia) id p Hp).
    + exists db', {| pk := next_pk (products db); fields := row |}.
      rewrite Hloop. simpl. split_and!; try done.
      * rewrite Hstock, Hnew, total_needed_unreferenced by done.
        simpl. by rewrite Z.sub_0_r.
      * by rewrite Hsame.
      * intros id p Hp. by rewrite Hstock, (Hold id p Hp).
  - assert (initial_stock = 0) as -> by lia.
    exists db2, {| pk := next_pk (products db); fields := row |}.
    simpl. split_and!; try done.
    intros id p Hp. rewrite total_needed_zero_stock, Z.sub_0_r, set_stock_same.
    by apply Hold.
Qed.


(** ** Sale creation *)

Lemma sell_item_in_stock (sale : Instance Sale) (line : SaleItemData) (db : Db)
  (id q : Z) (p : Product) :
  item_product_id line = Some id →
  item_sale_quantity line = Some q →
  products db !! id = Some p →
  q <= product_stock p →
  sell_item sale line db
  = (set_products <[id := set_stock (product_stock p - q) p]>
       (set_sale_items
          (fun rows => rows ++ [{| saleitem_sale := pk sale;
                                   saleitem_product := id;
                                   saleitem_quantity := q;
                                   saleitem_price := item_price line |}])
          db), Ok tt).
Proof.
  intros Hid Hq Hp Hle. rewrite sell_item_eq, Hid. simpl. rewrite Hp. simpl.
  rewrite Hq. destruct (product_stock p <? q) eqn:Hlt; [lia|done].
Qed.

Lemma for_each_sell_distinct (sale : Instance Sale) (items : list SaleItemData) :
  ∀ db,
    NoDup (item_product_id <$> items) →
    Forall (in_stock db) items →
    ∃ db' rows,
      for_each (sell_item sale) items db = (db', Ok tt) ∧
      sales db' = sales db ∧
      sale_items db' = sale_items db ++ rows ∧
      Forall2 (records (pk sale)) items rows ∧
      (∀ line id q p,
          line ∈ items → item_product_id line = Some id →
          item_sale_quantity line = Some q → products db !! id = Some p →
          products db' !! id = Some (set_stock (product_stock p - q) p)) ∧
      (∀ id, (∀ line, line ∈ items → item_product_id line ≠ Some id) →
             products db' !! id = products db !! id).
Proof.
  induction items as [|head rest IH]; intros db Hnodup Hstock.
  { exists db, []. simpl. rewrite app_nil_r. split_and!; try done.
    intros line ? ? ? Hin. by apply elem_of_nil in Hin. }
  rewrite fmap_cons in Hnodup. apply NoDup_cons in Hnodup as [Hnotin Hnodup].
  apply Forall_cons in Hstock as [(id & q & p & Hid & Hq & Hp & Hle) Hstock].
  pose proof (sell_item_in_stock sale head db id q p Hid Hq Hp Hle) as Hstep.
  set (db1 := set_products _ _) in Hstep.
  assert (∀ line, line ∈ rest → item_product_id line ≠ Some id) as Hother.
  { intros line Hin Heq. apply Hnotin. rewrite Hid, <- Heq.
    by apply list_elem_of_fmap_2. }
  destruct (IH db1 Hnodup) as (db' & rows & Hloop & Hsales & Hrows & Hrec & Hsold & Hkept).
  { eapply Forall_forall. intros line Hin.
    eapply (proj1 (Forall_forall _ _) Hstock) in Hin as Hline.
    destruct Hline as (id' & q' & p' & Hid' & Hq' & Hp' & Hle').
    exists id', q', p'. split_and!; try done.
    subst db1. simpl. rewrite lookup_insert_ne; [done|].
    intros ->. by apply (Hother line Hin). }
  exists db', ({| saleitem_sale := pk sale; saleitem_product := id;
                  saleitem_quantity := q;
                  saleitem_price := item_price head |} :: rows).
  split_and!.
  - by rewrite for_each_cons, Hstep.
  - by rewrite Hsales.
  - rewrite Hrows. subst db1. simpl. by rewrite <- app_assoc.
  - constructor; [|done]. by repeat split.
  - intros line id' q' p' Hin Hid' Hq' Hp'.
    apply elem_of_cons in Hin as [->|Hin].
    + assert (id' = id) as -> by congruence.
      assert (q' = q) as -> by congruence.
      assert (p' = p) as -> by congruence.
      rewrite (Hkept id Hother). subst db1. simpl. apply lookup_insert_eq.
    + apply (Hsold line id' q' p' Hin Hid' Hq').
      subst db1. simpl. rewrite lookup_insert_ne; [done|].
      intros ->. by apply (Hother line Hin).
  - intros id' Hnone. rewrite Hkept.
    + subst db1. simpl. rewrite lookup_insert_ne; [done|].
      intros ->. apply (Hnone head); [apply list_elem_of_here|done].
    + intros line Hin. apply Hnone. by apply list_elem_of_further.
Qed.

(** C5. Whenever the loop of a sale reaches a line whose product is
    stored with a stock of at least the submitted quantity Q, the
    iteration stores one sale item with the product, the quantity and the
    price of the payload, and takes exactly Q from the stock of that
    product. So a sale whose lines name distinct stored products, each
    with a stock of at least its Q, is created: each of these products
    loses exactly Q, the other products are untouched, and there is one
    sale item per line with the submitted price; the price of the product
    plays no part. *)
Theorem sale_deducts_and_records :
  (∀ (sale : Instance Sale) (line : SaleItemData) (db : Db) (id q : Z)
     (p : Product),
      item_product_id line = Some id →
      item_sale_quantity line = Some q →
      products db !! id = Some p →
      q <= product_stock p →
      sell_item sale line db
      = (set_products <[id := set_stock (product_stock p - q) p]>
           (set_sale_items
              (fun rows => rows ++ [{| saleitem_sale := pk sale;
                                       saleitem_product := id;
                                       saleitem_quantity := q;
                                       saleitem_price := item_price line |}])
              db), Ok tt)) ∧
  (∀ (validated_data : SaleData) (db : Db) (items : list SaleItemData),
      data_items validated_data = Some items →
      NoDup (item_product_id <$> items) →
      Forall (in_stock db) items →
      ∃ db' sale rows,
        SaleSerializer_create validated_data db = (db', Ok sale) ∧
        sales db' !! pk sale = Some (fields sale) ∧
        (∀ line id q p,
            line ∈ items → item_product_id line = Some id →
            item_sale_quantity line = Some q → products db !! id = Some p →
            products db' !! id = Some (set_stock (product_stock p - q) p)) ∧
        (∀ id, (∀ line, line ∈ items → item_product_id line ≠ Some id) →
               products db' !! id = products db !! id) ∧
        sale_items db' = sale_items db ++ rows ∧
        Forall2 (fun line row =>
                   saleitem_sale row = pk sale ∧
                   item_product_id line = Some (saleitem_product row) ∧
                   item_sale_quantity line = Some (saleitem_quantity row) ∧
                   saleitem_price row = item_price line) items rows).
Proof.
  split; [exact sell_item_in_stock|].
  intros validated_data db items Hitems Hnodup Hstock.
  unfold SaleSerializer_create, and_then, Sale_objects_create.
  rewrite Hitems. simpl.
  set (sale := {| pk := next_pk (sales db) |}).
  set (db1 := set_sales _ db).
  destruct (for_each_sell_distinct sale items db1 Hnodup Hstock)
    as (db' & rows & Hloop & Hsales & Hrows & Hrec & Hsold & Hkept).
  rewrite Hloop.
  exists db', sale, rows. split_and!; try done.
  rewrite Hsales. subst db1. simpl. apply lookup_insert_eq.
Qed.

(** C3. A refused sale leaves its earlier writes behind. There is no
    transaction around the loop of [SaleSerializer.create]: at the sale
    [sale_two_lines] on [shop] (2 units of product 1, then 1 unit of
    product 2, which has none) the insufficient-stock error is raised, and
    the sale header, the sale item of the first line and the deduction of
    2 units from product 1 are all still stored; the same holds when the
    second line names a product that does not exist. *)
Theorem refused_sale_keeps_partial_writes :
  (let '(db', r) := SaleSerializer_create sale_two_lines shop in
   r = Raise (ValidationError (InsufficientStock "Sal" 0 1)) ∧
   sales shop !! 1 = None ∧
   sales db' !! 1 = Some {| sale_total_amount := 21;
                            sale_payment_method := "efectivo" |} ∧
   sale_items shop = [] ∧
   sale_items db' = [{| saleitem_sale := 1; saleitem_product := 1;
                        saleitem_quantity := 2; saleitem_price := Some 7 |}] ∧
   product_stock <$> products shop !! 1 = Some 10 ∧
   product_stock <$> products db' !! 1 = Some 8) ∧
  (let '(db', r) := SaleSerializer_create sale_unknown_product shop in
   r = Raise (ValidationError (ProductNotFound (Some 9))) ∧
   is_Some (sales db' !! 1) ∧
   length (sale_items db') = 1%nat ∧
   product_stock <$> products db' !! 1 = Some 8).
Proof. vm_compute. split_and!; eauto. Qed.

(** ** Inventory changes *)

Lemma dict_get_set (kv : list (string * pyval)) (k : string) (v : pyval) :
  dict_get (dict_set kv k v) k = v.
Proof.
  induction kv as [|[k' v'] rest IH]; simpl.
  - by rewrite String.eqb_refl.
  - destruct (String.eqb k' k) eqn:E; simpl; by rewrite E.
Qed.

Lemma dict_set_set (kv : list (string * pyval)) (k : string) (v v' : pyval) :
  dict_set (dict_set kv k v) k v' = dict_set kv k v'.
Proof.
  induction kv as [|[k' w] rest IH]; simpl.
  - by rewrite String.eqb_refl.
  - destruct (String.eqb k' k) eqn:E; simpl; rewrite E; [done|]. by rewrite IH.
Qed.

Lemma validate_number (instance_type : pyval) (attrs : list (string * pyval))
  (d : decimal) :
  Decimal_of_str (dict_get attrs "quantity") = Some d →
  Dec.is_nan d = false →
  validate instance_type attrs
  = Ok (dict_set attrs "quantity" (VDec (Dec.abs d))).
Proof.
  intros Hparse Hnan. unfold validate. rewrite Hparse.
  assert (match Dec.ltb_zero d with
          | Some true => Ok (dict_set attrs "quantity" (VDec (Dec.abs d)))
          | Some false => Ok (dict_set attrs "quantity" (VDec d))
          | None => Raise InvalidOperation
          end = Ok (dict_set attrs "quantity" (VDec (Dec.abs d)))) as Hstore.
  { destruct d as [c e|neg|sig]; simpl; [|by destruct neg|done].
    destruct (c <? 0) eqn:Hc; [done|]. by replace (Z.abs c) with c by lia. }
  assert (∃ b, Dec.gtb_zero d = Some b) as [b Hgt].
  { destruct d; simpl; by eauto. }
  destruct (dict_get attrs "quantity") eqn:Hqty; try done;
    destruct (is_Salida _); simpl; by rewrite ?Hgt.
Qed.

(** A NaN is neither stored nor refused with a validation error: the
    comparison with zero raises. *)
Lemma validate_nan (instance_type : pyval) (attrs : list (string * pyval))
  (signaling : bool) :
  Decimal_of_str (dict_get attrs "quantity") = Some (Dec.NaN signaling) →
  validate instance_type attrs = Raise InvalidOperation.
Proof.
  intros Hparse. unfold validate. rewrite Hparse.
  destruct (dict_get attrs "quantity") eqn:Hqty; try done;
    simpl; by destruct (is_Salida _).
Qed.


(** ** Purchase totals *)

Lemma item_qty_spec (kv : list (string * pyval)) :
  item_qty (VDict kv) = Ok (spec_quantity kv).
Proof.
  unfold item_qty, spec_quantity, py_or. simpl.
  destruct (truthy (dict_get kv "quantity")) eqn:Ha; rewrite ?Ha; [done|].
  by destruct (truthy (dict_get kv "qty")) eqn:Hb; rewrite ?Hb.
Qed.

Lemma item_unit_price_spec (kv : list (string * pyval)) :
  item_unit_price (VDict kv) = Ok (spec_unit_price kv).
Proof.
  unfold item_unit_price, spec_unit_price, py_or. simpl.
  destruct (truthy (dict_get kv "unitPrice")) eqn:Ha; rewrite ?Ha; [done|].
  destruct (truthy (dict_get kv "unit_price")) eqn:Hb; rewrite ?Hb; [done|].
  by destruct (truthy (dict_get kv "price")) eqn:Hc; rewrite ?Hc.
Qed.







Lemma mul_fin (a b : Z * Z) : Dec.mul (fin a) (fin b) = Some (fin (fin_times a b)).
Proof. by destruct a, b. Qed.

(** One iteration on a plain line adds the line, or skips it. *)
Lemma get_total_step_plain (total : Z * Z) (item : pyval) :
  plain_item item →
  get_total_step (fin total) item
  = Ok (fin (match spec_line item with
             | Some x => fin_plus total x
             | None => total
             end)).
Proof.
  intros (kv & -> & Hq & Hp). unfold get_total_step.
  rewrite item_qty_spec, item_unit_price_spec. simpl.
  unfold add_line, plain in *.
  destruct (Decimal_of_str (spec_quantity kv)) as [[cq eq| |]|]; simpl; try done.
  destruct (Decimal_of_str (spec_unit_price kv)) as [[cp ep| |]|]; simpl; try done.
Qed.





(** ** Order totals *)

Lemma order_lines_spec (order : Instance Order) (items : list OrderItemData) :
  ∀ total db,
    ∃ db', order_lines order items total db
           = (db', Ok (total + spec_order_total items)) ∧
           orders db' = orders db.
Proof.
  induction items as [|item rest IH]; intros total db; simpl.
  - exists db. split; [|done]. unfold ret. do 2 f_equal. lia.
  - unfold and_then, OrderItem_objects_create.
    edestruct IH as (db' & Hloop & Horders). rewrite Hloop.
    exists db'. split; [|by rewrite Horders]. do 2 f_equal. lia.
Qed.

Lemma order_create_spec (total_amount_default : Z)
  (validated_data : OrderData) (db : Db) :
  ∃ db' order,
    OrderSerializer_create total_amount_default validated_data db
    = (db', Ok order) ∧
    order_total_amount (fields order)
    = spec_order_total (default [] (data_order_items validated_data)) ∧
    orders db' !! pk order = Some (fields order).
Proof.
  unfold OrderSerializer_create, and_then, Order_objects_create, Order_save.
  set (order := {| pk := next_pk (orders db) |}).
  set (db1 := set_orders _ db).
  destruct (order_lines_spec order
              (default [] (data_order_items validated_data)) 0 db1)
    as (db2 & Hloop & Horders).
  rewrite Hloop. simpl. eexists _, _. split; [done|]. simpl. split; [done|].
  apply lookup_insert_eq.
Qed.

(** C8. Order creation stores on the order the sum of quantity times
    unit_price over the submitted entries, whatever total_amount the
    payload carried; reading the order back shows the stored column, also
    after the rows of its items have changed. The entries
    [{"quantity":3,"unit_price":10}, {"quantity":2,"unit_price":5}] store
    40. *)
Theorem order_total_persisted (total_amount_default : Z)
  (validated_data : OrderData) (db : Db) :
  (∃ db' order,
      OrderSerializer_create total_amount_default validated_data db
      = (db', Ok order) ∧
      order_total_amount (fields order)
      = foldr (fun item acc =>
                 default 1 (entry_quantity item) * default 0 (entry_unit_price item)
                 + acc) 0 (default [] (data_order_items validated_data)) ∧
      orders db' !! pk order = Some (fields order) ∧
      ∀ db'', orders db'' !! pk order = orders db' !! pk order →
              repr_total_amount <$> OrderSerializer_to_representation db'' (pk order)
              = Some (order_total_amount (fields order))) ∧
  (∃ db' order,
      OrderSerializer_create total_amount_default order_example db
      = (db', Ok order) ∧
      order_total_amount (fields order) = 40).
Proof.
  split.
  - destruct (order_create_spec total_amount_default validated_data db)
      as (db' & order & Hcreate & Htotal & Hstored).
    exists db', order. split_and!; try done.
    intros db'' Hsame. unfold OrderSerializer_to_representation.
    by rewrite Hsame, Hstored.
  - destruct (order_create_spec total_amount_default order_example db)
      as (db' & order & Hcreate & Htotal & _).
    by exists db', order.
Qed.

(** ** Product validation and the derived state *)

Lemma get_estado_activo (obj : Product) :
  get_estado obj = "Activo"%string ↔ 0 < product_stock obj.
Proof.
  unfold get_estado. destruct (0 <? product_stock obj) eqn:E; split; try done; lia.
Qed.

Lemma get_estado_inactivo (obj : Product) :
  get_estado obj = "Inactivo"%string ↔ ¬ 0 < product_stock obj.
Proof.
  unfold get_estado. destruct (0 <? product_stock obj) eqn:E; split; try done; lia.
Qed.

Lemma run_validation_valid (data : ProductData) :
  valid_payload data →
  run_validation data
  = Ok {| data_name := PyStr.strip (data_name data);
          data_price := data_price data;
          data_stock := data_stock data;
          data_low_stock_threshold := data_low_stock_threshold data;
          data_is_ingredient := data_is_ingredient data;
          data_recipe_ingredients := data_recipe_ingredients data |}.
Proof.
  intros (Hname & Hprice & Hstock & Hthreshold).
  unfold run_validation, validate_name, validate_price, validate_stock,
    validate_low_stock_threshold.
  assert (String.eqb (data_name data) "" = false) as ->.
  { apply String.eqb_neq. intros Heq. apply Hname. by rewrite Heq. }
  assert (String.eqb (PyStr.strip (data_name data)) "" = false) as ->.
  { by apply String.eqb_neq. }
  simpl. destruct (data_price data <=? 0) eqn:Hp; [lia|]. simpl.
  destruct (data_stock data) as [s|] eqn:Hs; simpl.
  - specialize (Hstock s eq_refl). destruct (s <? 0) eqn:Hneg; [lia|]. simpl.
    by destruct (data_low_stock_threshold data <? 0) eqn:Ht; [lia|].
  - by destruct (data_low_stock_threshold data <? 0) eqn:Ht; [lia|].
Qed.

(** C9, as amended. A payload that passes the field validators (name not
    empty or blank, price > 0, stock >= 0, threshold >= 0) and whose
    recipe takes from no ingredient more than it has is created: the
    product is stored under its stripped name with the submitted stock.
    On every product, created or read back, estado is 'Activo' exactly
    when the stock is positive and 'Inactivo' otherwise. *)
Theorem valid_payload_created (stock_default : Z) (data : ProductData) (db : Db) :
  valid_payload data →
  recipe_resolves db (default [] (data_recipe_ingredients data)) →
  (0 < default 0 (data_stock data) →
   sufficient db (default 0 (data_stock data))
     (default [] (data_recipe_ingredients data))) →
  (∃ db' product,
      ProductSerializer_save stock_default data db = (db', Ok product) ∧
      products db' !! pk product = Some (fields product) ∧
      product_name (fields product) = PyStr.strip (data_name data) ∧
      product_stock (fields product) = default stock_default (data_stock data)) ∧
  (∀ obj, get_estado obj = "Activo"%string ↔ 0 < product_stock obj) ∧
  (∀ obj, get_estado obj = "Inactivo"%string ↔ ¬ 0 < product_stock obj).
Proof.
  intros Hvalid Hres Hsuff. split_and!.
  - unfold ProductSerializer_save. rewrite (run_validation_valid data Hvalid).
    set (validated_data := {| data_name := PyStr.strip (data_name data) |}).
    destruct (create_succeeds stock_default validated_data db
                (default [] (data_recipe_ingredients data))
                (default 0 (data_stock data)))
      as (db' & product & Hcreate & _ & Hname & Hstock & Hstored & _);
      [done|done| |exact Hres|exact Hsuff|].
    + simpl. destruct Hvalid as (_ & _ & Hs & _).
      destruct (data_stock data) as [s|]; simpl; [by apply Hs|done].
    + exists db', product. by rewrite Hcreate.
  - apply get_estado_activo.
  - apply get_estado_inactivo.
Qed.

(** C9, as stated, fails: [pan_data] (name "Pan", price 4, stock 3,
    threshold 0, a recipe of 1 unit of product 2 per unit made) passes the
    four field validators and its ingredient is a stored product, but the
    ingredient has no stock, so the creation on [shop] is refused and
    nothing is stored. *)
Lemma valid_payload_refused :
  valid_payload pan_data ∧
  run_validation pan_data = Ok pan_data ∧
  recipe_resolves shop (default [] (data_recipe_ingredients pan_data)) ∧
  ProductSerializer_save 0 pan_data shop
  = (shop, Raise (ValidationError (InsufficientIngredient "Sal" 3 0))).
Proof.
  split_and!.
  - unfold valid_payload, pan_data. simpl. split_and!; try done.
    intros s [= <-]. done.
  - done.
  - constructor; [|constructor]. intros ing [= <-]. simpl. by eexists.
  - by vm_compute.
Qed.

(** * The theorems at concrete inputs *)

Lemma stock_never_negative_witness :
  0 <= 0 ∧ stock_nonneg shop ∧
  stock_nonneg (run_operations 0 shop
                  [CreateSale sale_two_lines; CreateProduct pan_data;
                   CreateProduct torta_data]).
Proof.
  assert (stock_nonneg shop) as Hshop by (unfold stock_nonneg; compute_done).
  split; [lia|]. split; [exact Hshop|].
  apply stock_never_negative; [lia|exact Hshop].
Defined.



Lemma sale_deducts_and_records_witness :
  product_stock <$> products (fst (SaleSerializer_create sale_one_line shop)) !! 1
  = Some 8 ∧
  saleitem_price <$> sale_items (fst (SaleSerializer_create sale_one_line shop))
  = [Some 7].
Proof.
  destruct (proj2 sale_deducts_and_records sale_one_line shop
              [ {| item_product_id := Some 1; item_sale_quantity := Some 2;
                   item_price := Some 7 |} ])
    as (db' & sale & rows & Hcreate & _ & Hsold & _ & Hrows & Hrec).
  - reflexivity.
  - apply NoDup_singleton.
  - constructor; [|constructor]. exists 1, 2, harina.
    split_and!; [reflexivity|reflexivity|reflexivity|simpl; lia].
  - rewrite Hcreate. simpl. split.
    + rewrite (Hsold _ 1 2 harina (list_elem_of_here _ _) eq_refl eq_refl eq_refl).
      reflexivity.
    + rewrite Hrows. simpl.
      apply Forall2_cons_inv_l in Hrec as (row & rows' & (_ & _ & _ & Hprice) & Hnil & ->).
      apply Forall2_nil_inv_l in Hnil as ->. simpl. by rewrite Hprice.
Defined.



Lemma order_total_persisted_witness :
  repr_total_amount
    <$> OrderSerializer_to_representation
          (set_order_items (fun _ => [])
             (fst (OrderSerializer_create 0 order_example empty_db))) 1
  = Some 40.
Proof.
  destruct (proj1 (order_total_persisted 0 order_example empty_db))
    as (db' & order & Hcreate & Htotal & _ & Hread).
  vm_compute in Hcreate. injection Hcreate as <- <-.
  exact (Hread (set_order_items (fun _ => [])
                  (fst (OrderSerializer_create 0 order_example empty_db)))
               eq_refl).
Defined.

Lemma valid_payload_created_witness :
  valid_payload torta_data ∧
  ∃ db' product,
    ProductSerializer_save 0 torta_data shop = (db', Ok product) ∧
    products db' !! pk product = Some (fields product) ∧
    product_name (fields product) = "Torta"%string ∧
    product_stock (fields product) = 3.
Proof.
  assert (valid_payload torta_data) as Hvalid.
  { unfold valid_payload. split_and!; [by vm_compute|simpl; lia| |simpl; lia].
    intros s [= <-]. lia. }
  split; [exact Hvalid|].
  apply (proj1 (valid_payload_created 0 torta_data shop Hvalid
                  ltac:(constructor; [|constructor; [|constructor; [|constructor]]];
                        intros ing [= <-]; vm_compute; by eexists)
                  ltac:(intros _; unfold sufficient; compute_done))).
Defined.


(** * Further properties of the serializers *)

(** ** Purchase totals *)

Lemma get_total_step_dict (total : decimal) (kv : list (string * pyval)) :
  ∃ total', get_total_step total (VDict kv) = Ok total'.
Proof.
  unfold get_total_step. rewrite item_qty_spec, item_unit_price_spec. simpl.
  by eexists.
Qed.

Lemma get_total_step_eq (total : decimal) (kv : list (string * pyval)) :
  get_total_step total (VDict kv)
  = Ok (default total (add_line total (spec_quantity kv) (spec_unit_price kv))).
Proof.
  unfold get_total_step. by rewrite item_qty_spec, item_unit_price_spec.
Qed.

Lemma get_total_loop_cons (total : decimal) (item : pyval) (rest : list pyval) :
  get_total_loop total (item :: rest)
  = do total' <- get_total_step total item; get_total_loop total' rest.
Proof. done. Qed.

Lemma get_total_step_not_dict (total : decimal) (item : pyval) :
  is_dict item = false → get_total_step total item = Raise AttributeError.
Proof. by destruct item. Qed.

Lemma get_total_loop_not_dict (items : list pyval) :
  Exists (fun item => is_dict item = false) items →
  ∀ total, get_total_loop total items = Raise AttributeError.
Proof.
  induction items as [|item rest IH]; intros Hex total.
  { by apply Exists_nil in Hex. }
  simpl. destruct (is_dict item) eqn:Hitem.
  - apply Exists_cons in Hex as [Hex|Hex]; [congruence|].
    destruct item; try done.
    destruct (get_total_step_dict total kv) as [total' ->]. simpl. by apply IH.
  - by rewrite get_total_step_not_dict.
Qed.

(** X1. The reads [item.get(...)] are outside the [try]: when the items
    are a list that holds anything but JSON objects (a number, a string,
    a list, null), [get_total] raises [AttributeError], whatever the other
    items are. *)
Theorem purchase_total_needs_objects (obj : Purchase) (items : list pyval) :
  purchase_items obj = VList items →
  Exists (fun item => is_dict item = false) items →
  get_total obj = Raise AttributeError.
Proof.
  intros Hitems Hex. unfold get_total. rewrite Hitems.
  by rewrite get_total_loop_not_dict.
Qed.







Lemma get_total_loop_nan (items : list pyval) :
  Forall (fun item => is_dict item = true) items →
  get_total_loop (Dec.NaN false) items = Ok (Dec.NaN false).
Proof.
  induction 1 as [|item rest Hitem _ IH]; [done|].
  destruct item as [| | | | | |kv]; try done.
  rewrite get_total_loop_cons, get_total_step_eq. simpl.
  replace (default (Dec.NaN false)
             (add_line (Dec.NaN false) (spec_quantity kv) (spec_unit_price kv)))
    with (Dec.NaN false); [done|].
  unfold add_line.
  destruct (Decimal_of_str (spec_quantity kv)) as [q|]; simpl; [|done].
  destruct (Decimal_of_str (spec_unit_price kv)) as [p|]; simpl; [|done].
  destruct (Dec.mul q p) as [x|]; simpl; [|done].
  by destruct x as [| |[]].
Qed.

(** X4. A quiet NaN is not skipped, it takes over the total: when the
    quantity of one line reads as NaN (and its unit price reads as a
    Decimal that is no signalling NaN), the total is NaN whatever the
    lines before it (numbers or unparseable) and after it (any JSON
    objects) hold. *)
Theorem purchase_total_nan (stored : pyval) (before after : list pyval)
  (kv : list (string * pyval)) (price : decimal) :
  Forall plain_item before →
  Forall (fun item => is_dict item = true) after →
  Decimal_of_str (spec_quantity kv) = Some (Dec.NaN false) →
  Decimal_of_str (spec_unit_price kv) = Some price →
  Dec.is_snan price = false →
  get_total {| purchase_items := VList (before ++ VDict kv :: after);
               purchase_total_amount := stored |}
  = Ok (VDec (Dec.NaN false)).
Proof.
  intros Hbefore Hafter Hq Hp Hprice. unfold get_total. simpl.
  assert (∀ total,
            snd total <= 0 →
            get_total_loop (fin total) (before ++ VDict kv :: after)
            = Ok (Dec.NaN false)) as Hloop.
  { induction Hbefore as [|item rest Hitem _ IH]; intros total Hexp.
    - rewrite app_nil_l, get_total_loop_cons, get_total_step_eq.
      unfold add_line. rewrite Hq, Hp. simpl.
      assert (Dec.mul (Dec.NaN false) price = Some (Dec.NaN false)) as ->.
      { by destruct price as [| |[]]. }
      simpl. by apply get_total_loop_nan.
    - rewrite <- app_comm_cons, get_total_loop_cons.
      rewrite (get_total_step_plain total item Hitem). simpl.
      destruct (spec_line item) as [x|] eqn:Hline; [|by apply IH].
      apply IH. simpl. lia. }
  change Dec.zero with (fin (0, 0)). by rewrite Hloop.
Qed.

(** ** Inventory changes *)

Lemma dict_get_set_ne (kv : list (string * pyval)) (k k' : string) (v : pyval) :
  k ≠ k' → dict_get (dict_set kv k v) k' = dict_get kv k'.
Proof.
  intros Hne. induction kv as [|[k0 v0] rest IH]; simpl.
  - by rewrite (proj2 (String.eqb_neq k k')).
  - destruct (String.eqb k0 k) eqn:E; simpl; [|by rewrite IH].
    apply String.eqb_eq in E as ->.
    by rewrite (proj2 (String.eqb_neq k k')).
Qed.

(** What [validate] does, by what the quantity reads as. *)
Lemma validate_cases (instance_type : pyval) (attrs : list (string * pyval)) :
  validate instance_type attrs
  = match dict_get attrs "quantity" with
    | VNone => Raise (ValidationError QuantityRequired)
    | qty =>
        match Decimal_of_str qty with
        | None => Raise (ValidationError QuantityInvalid)
        | Some (Dec.NaN _) => Raise InvalidOperation
        | Some d => Ok (dict_set attrs "quantity" (VDec (Dec.abs d)))
        end
    end.
Proof.
  pose proof (validate_nan instance_type attrs) as Hnan.
  pose proof (validate_number instance_type attrs) as Hnumber.
  destruct (dict_get attrs "quantity") eqn:Hqty;
    [unfold validate; by rewrite Hqty|..];
    (destruct (Decimal_of_str _) as [[c e|neg|sig]|] eqn:Hparse;
     [by apply Hnumber|by apply Hnumber|by eapply Hnan
     |unfold validate; by rewrite Hqty, ?Hparse]).
Qed.

(** X5. Validation of an inventory change is idempotent: attributes
    that passed it pass it again, under any movement type, and come out
    unchanged. *)
Theorem inventory_validate_idempotent (instance_type instance_type' : pyval)
  (attrs out : list (string * pyval)) :
  validate instance_type attrs = Ok out →
  validate instance_type' out = Ok out.
Proof.
  rewrite validate_cases. intros Hout.
  assert (∃ d, Dec.is_nan d = false ∧
               out = dict_set attrs "quantity" (VDec (Dec.abs d)))
    as (d & Hnan & ->).
  { destruct (dict_get attrs "quantity"); try done;
      destruct (Decimal_of_str _) as [[c e|neg|sig]|]; try done;
      injection Hout as <-;
      first [by exists (Dec.Fin c e)|by exists (Dec.Inf neg)]. }
  rewrite validate_cases, dict_get_set.
  destruct d as [c e|neg|sig]; try done; simpl; rewrite dict_set_set;
    [by rewrite Z.abs_idemp|done].
Qed.

(** X6. The outcome of the validation depends on the quantity alone:
    two calls on attributes with the same quantity, whatever their
    movement types and other fields, both pass and store the same
    quantity, or both raise the same exception. *)
Theorem inventory_validate_quantity_only (instance_type instance_type' : pyval)
  (attrs attrs' : list (string * pyval)) :
  dict_get attrs "quantity" = dict_get attrs' "quantity" →
  match validate instance_type attrs, validate instance_type' attrs' with
  | Ok out, Ok out' => dict_get out "quantity" = dict_get out' "quantity"
  | Raise e, Raise e' => e = e'
  | _, _ => False
  end.
Proof.
  intros Hqty. rewrite !validate_cases, <- Hqty.
  destruct (dict_get attrs "quantity"); try done;
    destruct (Decimal_of_str _) as [[| |]|]; try done;
    by rewrite !dict_get_set.
Qed.

(** X7. Validation of an inventory change touches the quantity only,
    and what it stores there is a Decimal that is not below zero: every
    other attribute comes out as it went in. *)
Theorem inventory_validate_output (instance_type : pyval)
  (attrs out : list (string * pyval)) :
  validate instance_type attrs = Ok out →
  (∃ d, dict_get out "quantity" = VDec d ∧ Dec.ltb_zero d = Some false) ∧
  (∀ k, k ≠ "quantity"%string → dict_get out k = dict_get attrs k).
Proof.
  rewrite validate_cases. intros Hout.
  assert (∃ d, Dec.is_nan d = false ∧
               out = dict_set attrs "quantity" (VDec (Dec.abs d)))
    as (d & Hnan & ->).
  { destruct (dict_get attrs "quantity"); try done;
      destruct (Decimal_of_str _) as [[c e|neg|sig]|]; try done;
      injection Hout as <-;
      first [by exists (Dec.Fin c e)|by exists (Dec.Inf neg)]. }
  split.
  - exists (Dec.abs d). rewrite dict_get_set. split; [done|].
    destruct d as [c e|neg|sig]; try done. simpl. f_equal. lia.
  - intros k Hk. by apply dict_get_set_ne.
Qed.

(** ** Product validation *)

Lemma lstrip_head (cs : list ascii) :
  match PyStr.lstrip cs with
  | [] => True
  | c :: _ => PyStr.isspace c = false
  end.
Proof.
  induction cs as [|c rest IH]; simpl; [done|].
  by destruct (PyStr.isspace c) eqn:Hc; [|simpl].
Qed.

Lemma lstrip_clean (cs : list ascii) :
  match cs with [] => True | c :: _ => PyStr.isspace c = false end →
  PyStr.lstrip cs = cs.
Proof. destruct cs as [|c rest]; simpl; [done|]. by intros ->. Qed.

Lemma lstrip_suffix (cs : list ascii) :
  ∃ spaces, cs = spaces ++ PyStr.lstrip cs.
Proof.
  induction cs as [|c rest [spaces IH]]; simpl; [by exists []|].
  destruct (PyStr.isspace c); [|by exists []].
  exists (c :: spaces). simpl. by rewrite <- IH.
Qed.

(** The characters left by [strip] start and end with no whitespace. *)
Lemma strip_chars_clean (cs : list ascii) :
  PyStr.lstrip (PyStr.strip_chars cs) = PyStr.strip_chars cs ∧
  PyStr.lstrip (rev (PyStr.strip_chars cs)) = rev (PyStr.strip_chars cs).
Proof.
  unfold PyStr.strip_chars. rewrite rev_involutive.
  set (a := PyStr.lstrip cs). set (b := PyStr.lstrip (rev a)).
  split.
  - apply lstrip_clean.
    destruct (lstrip_suffix (rev a)) as [spaces Hsplit]. fold b in Hsplit.
    assert (a = rev b ++ rev spaces) as Ha.
    { by rewrite <- rev_app_distr, <- Hsplit, rev_involutive. }
    pose proof (lstrip_head cs) as Hhead. fold a in Hhead.
    destruct (rev b) as [|c rest] eqn:Hb; [done|].
    rewrite Ha in Hhead. by simpl in Hhead.
  - apply lstrip_clean. subst b. apply lstrip_head.
Qed.

Lemma strip_chars_idempotent (cs : list ascii) :
  PyStr.strip_chars (PyStr.strip_chars cs) = PyStr.strip_chars cs.
Proof.
  destruct (strip_chars_clean cs) as [Hfront Hback].
  unfold PyStr.strip_chars at 1. by rewrite Hfront, Hback, rev_involutive.
Qed.

Lemma strip_idempotent (s : string) : PyStr.strip (PyStr.strip s) = PyStr.strip s.
Proof.
  unfold PyStr.strip, PyStr.chars.
  by rewrite list_ascii_of_string_of_list_ascii, strip_chars_idempotent.
Qed.

(** X8. A product name that is accepted comes out stripped: the name
    that is stored neither starts nor ends with whitespace, is not empty,
    and is accepted unchanged when it is validated again. *)
Theorem validate_name_normal_form (value name : string) :
  validate_name value = Ok name →
  name = PyStr.strip value ∧
  name ≠ ""%string ∧
  PyStr.lstrip (PyStr.chars name) = PyStr.chars name ∧
  PyStr.lstrip (rev (PyStr.chars name)) = rev (PyStr.chars name) ∧
  validate_name name = Ok name.
Proof.
  unfold validate_name.
  destruct (String.eqb value "") eqn:Hempty; [done|].
  destruct (String.eqb (PyStr.strip value) "") eqn:Hblank; [done|].
  simpl. intros [= <-].
  apply String.eqb_neq in Hblank.
  destruct (strip_chars_clean (PyStr.chars value)) as [Hfront Hback].
  split_and!; try done.
  - unfold PyStr.strip, PyStr.chars.
    by rewrite list_ascii_of_string_of_list_ascii.
  - unfold PyStr.strip, PyStr.chars.
    by rewrite list_ascii_of_string_of_list_ascii.
  - rewrite strip_idempotent.
    by rewrite (proj2 (String.eqb_neq _ _) Hblank).
Qed.

(** X9. The four field validators accept exactly the payloads with a
    name that is not blank, a price above 0, a stock (when there is one)
    of at least 0 and a threshold of at least 0; the validated payload is
    the submitted one with its name stripped, nothing else is changed. *)
Theorem validators_accept_iff (data validated_data : ProductData) :
  run_validation data = Ok validated_data ↔
  (valid_payload data ∧
   validated_data
   = {| data_name := PyStr.strip (data_name data);
        data_price := data_price data;
        data_stock := data_stock data;
        data_low_stock_threshold := data_low_stock_threshold data;
        data_is_ingredient := data_is_ingredient data;
        data_recipe_ingredients := data_recipe_ingredients data |}).
Proof.
  split.
  - intros Hrun.
    assert (valid_payload data) as Hvalid.
    { revert Hrun. unfold run_validation, valid_payload, validate_name,
        validate_price, validate_stock, validate_low_stock_threshold.
      destruct (String.eqb (data_name data) ""); [done|].
      destruct (String.eqb (PyStr.strip (data_name data)) "") eqn:Hblank;
        [done|].
      apply String.eqb_neq in Hblank. simpl.
      destruct (data_price data <=? 0) eqn:Hprice; [done|]. simpl.
      destruct (data_stock data) as [s|]; simpl.
      - destruct (s <? 0) eqn:Hs; [done|]. simpl.
        destruct (data_low_stock_threshold data <? 0) eqn:Ht; [done|].
        intros _. split_and!; [done|lia| |lia]. intros ? [= <-]. lia.
      - destruct (data_low_stock_threshold data <? 0) eqn:Ht; [done|].
        intros _. split_and!; [done|lia|done|lia]. }
    split; [done|]. rewrite (run_validation_valid data Hvalid) in Hrun.
    by injection Hrun.
  - intros [Hvalid ->]. by apply run_validation_valid.
Qed.

(** ** Product creation *)

Lemma stock_nonneg_deduct (db : Db) (id amount : Z) (p : Product) :
  stock_nonneg db → amount <= product_stock p →
  stock_nonneg
    (set_products <[id := set_stock (product_stock p - amount) p]> db).
Proof.
  intros Hdb Hle. unfold stock_nonneg. simpl.
  apply map_Forall_insert_2; [simpl; lia|done].
Qed.

Lemma for_each_deduct_overdrawn (initial_stock : Z)
  (recipe : list RecipeItemData) :
  0 < initial_stock →
  ∀ db, recipe_resolves db recipe →
        stock_nonneg db →
        (∃ id p, products db !! id = Some p ∧
                 product_stock p < total_needed initial_stock recipe id) →
  ∃ name needed available,
    available < needed ∧
    snd (for_each (deduct_ingredient initial_stock) recipe db)
    = Raise (ValidationError (InsufficientIngredient name needed available)).
Proof.
  intros HS. induction recipe as [|head rest IH]; intros db Hres Hnonneg Hover.
  { destruct Hover as (id & p & Hp & Hlt). specialize (Hnonneg id p Hp).
    simpl in *. lia. }
  apply Forall_cons in Hres as [Hhead Hrest].
  destruct Hover as (id & p & Hp & Hlt). simpl in Hlt.
  rewrite for_each_cons.
  pose proof (deduct_ingredient_eq initial_stock head db) as Hstep.
  (* a skipped line *)
  assert (line_deduction initial_stock id head = 0 →
          deduct_ingredient initial_stock head db = (db, Ok tt) →
          ∃ name needed available,
            available < needed ∧
            snd (let (db', r) := deduct_ingredient initial_stock head db in
                 match r with
                 | Ok _ => for_each (deduct_ingredient initial_stock) rest db'
                 | Raise e => (db', Raise e)
                 end)
            = Raise (ValidationError
                       (InsufficientIngredient name needed available)))
    as Hskipped.
  { intros Hzero ->. apply IH; [done..|]. exists id, p. split; [done|lia]. }
  destruct (item_ingredient head) as [ing|] eqn:Hing.
  2:{ apply Hskipped; [|done]. apply line_deduction_skipped. by rewrite Hing. }
  destruct (item_quantity head) as [q|] eqn:Hq.
  2:{ apply Hskipped; [|done]. apply line_deduction_skipped. by rewrite Hing, Hq. }
  destruct ((q =? 0) || (q <=? 0)) eqn:Hskip.
  { apply Hskipped; [|done]. apply line_deduction_skipped. by rewrite Hing, Hq. }
  destruct (Hhead ing eq_refl) as [p_h Hp_h]. rewrite Hp_h in Hstep.
  destruct (product_stock p_h <? q * initial_stock) eqn:Hcheck.
  { rewrite Hstep. simpl. eexists _, _, _. split; [|done]. lia. }
  rewrite Hstep. apply IH.
  - by apply recipe_resolves_insert.
  - apply stock_nonneg_deduct; [done|lia].
  - unfold line_deduction in Hlt. rewrite Hing, Hq in Hlt. simpl.
    destruct (decide (pk ing = id)) as [Heq|Hne].
    + subst id. assert (p_h = p) as -> by congruence.
      rewrite bool_decide_eq_true_2 in Hlt by done. simpl in Hlt.
      destruct (0 <? q) eqn:Hpos; [|lia].
      eexists _, _. rewrite lookup_insert_eq. split; [done|]. simpl. lia.
    + rewrite bool_decide_eq_false_2 in Hlt by done. simpl in Hlt.
      exists id, p. rewrite lookup_insert_ne by done. split; [done|lia].
Qed.

(** X10. With a stock S > 0, on a database without negative stocks and
    a recipe whose ingredients are stored, a product is created exactly
    when every ingredient covers the sum of quantity * S over all the
    recipe lines that name it: two lines that each fit can still be
    refused together. *)
Theorem creation_succeeds_iff (stock_default : Z) (validated_data : ProductData)
  (db : Db) (recipe : list RecipeItemData) (initial_stock : Z) :
  default [] (data_recipe_ingredients validated_data) = recipe →
  data_stock validated_data = Some initial_stock →
  0 < initial_stock →
  stock_nonneg db →
  recipe_resolves db recipe →
  (∃ db' product,
      ProductSerializer_create stock_default validated_data db = (db', Ok product))
  ↔ sufficient db initial_stock recipe.
Proof.
  intros Hrecipe HS HSpos Hnonneg Hres. split.
  - intros (db' & product & Hcreate).
    destruct (decide (sufficient db initial_stock recipe)) as [|Hnot]; [done|].
    exfalso. apply map_not_Forall in Hnot as (id & p & Hp & Hlt);
      [|apply _].
    revert Hcreate. unfold ProductSerializer_create, atomic.
    rewrite create_body_eq. rewrite Hrecipe, HS. simpl.
    destruct (0 <? initial_stock) eqn:Hpos; [|lia].
    set (db2 := set_recipe_ingredients _ _).
    pose proof (next_pk_fresh (products db)) as Hfresh.
    destruct (for_each_deduct_overdrawn initial_stock recipe HSpos db2)
      as (name & needed & available & _ & Hraise).
    + eapply Forall_impl; [exact Hres|]. intros item H ing Hing.
      destruct (H ing Hing) as [p' Hp']. exists p'. subst db2. simpl.
      rewrite lookup_insert_ne; [done|]. intros Heq. congruence.
    + subst db2. unfold stock_nonneg. simpl.
      apply map_Forall_insert_2; [simpl; lia|done].
    + exists id, p. split; [|lia]. subst db2. simpl.
      rewrite lookup_insert_ne; [done|]. intros Heq. congruence.
    + by destruct (for_each _ _ db2) as [db3 [[]|e]].
  - intros Hsuff.
    destruct (create_succeeds stock_default validated_data db recipe initial_stock)
      as (db' & product & Hcreate & _); try done.
    + by rewrite HS.
    + lia.
    + by exists db', product.
Qed.

Lemma same_but_stock_refl (db : Db) : same_but_stock db db.
Proof.
  intros id. destruct (products db !! id) as [p|]; [|done].
  by rewrite set_stock_same.
Qed.

Lemma same_but_stock_step (db cur : Db) (id s : Z) (p : Product) :
  same_but_stock db cur →
  products cur !! id = Some p →
  same_but_stock db (set_products <[id := set_stock s p]> cur).
Proof.
  intros Hsame Hp id'. specialize (Hsame id'). simpl.
  destruct (decide (id = id')) as [->|Hne].
  - rewrite lookup_insert_eq. rewrite Hp in Hsame.
    destruct (products db !! id') as [p0|]; [|done]. simpl.
    rewrite Hsame. done.
  - by rewrite lookup_insert_ne.
Qed.

Lemma only_deducted_step (initial_stock : Z) (db : Db)
  (item_data : RecipeItemData) (cur : Db) :
  0 < initial_stock →
  only_deducted db cur →
  only_deducted db (fst (deduct_ingredient initial_stock item_data cur)).
Proof.
  intros HS Hcur. rewrite deduct_ingredient_eq.
  destruct (item_ingredient item_data) as [ing|]; [|done].
  destruct (item_quantity item_data) as [q|]; [|done].
  destruct ((q =? 0) || (q <=? 0)) eqn:Hskip; [done|].
  destruct (products cur !! pk ing) as [p_cur|] eqn:Hp_cur; [|done].
  destruct (product_stock p_cur <? q * initial_stock); [done|]. simpl.
  destruct Hcur as (Hproducts & Hrest). split; [|done].
  intros id p Hp. destruct (Hproducts id p Hp) as (p' & Hp' & Hsame & Hle).
  simpl. destruct (decide (pk ing = id)) as [Heq|Hne].
  - subst id. rewrite lookup_insert_eq. eexists. split; [done|].
    assert (p_cur = p') as -> by congruence. simpl. split; [by rewrite Hsame|nia].
  - rewrite lookup_insert_ne by done. by exists p'.
Qed.

(** X11. Whatever the payload and whether the creation succeeds or is
    refused, it leaves every product that was stored before in place with
    the same name, price, threshold and ingredient flag and with a stock
    that is not higher than before, and it leaves the sales and the orders
    as they were. *)
Theorem creation_only_deducts (stock_default : Z) (validated_data : ProductData)
  (db : Db) :
  only_deducted db (fst (ProductSerializer_create stock_default validated_data db)).
Proof.
  assert (only_deducted db db) as Hrefl.
  { split; [|done]. intros id p Hp. exists p.
    split_and!; [done|by rewrite set_stock_same|lia]. }
  unfold ProductSerializer_create, atomic. rewrite create_body_eq. simpl.
  set (db2 := set_recipe_ingredients _ _).
  assert (only_deducted db db2) as Hdb2.
  { split; [|done]. intros id p Hp. exists p.
    split_and!; [|by rewrite set_stock_same|lia].
    subst db2. simpl. rewrite lookup_insert_ne; [done|].
    intros Heq. pose proof (next_pk_fresh (products db)). congruence. }
  destruct (0 <? default 0 (data_stock validated_data)) eqn:Hpos; [|done].
  assert (0 < default 0 (data_stock validated_data)) as HS by lia.
  pose proof (for_each_invariant (only_deducted db)
                (deduct_ingredient (default 0 (data_stock validated_data)))
                (default [] (data_recipe_ingredients validated_data))
                (fun item cur => only_deducted_step _ db item cur HS)
                db2 Hdb2) as Hloop.
  by destruct (for_each _ _ db2) as [db3 [[]|e]].
Qed.

(** ** Sale creation *)

Lemma for_each_app {A : Type} (body : A → M unit) (xs ys : list A) :
  ∀ db,
    for_each body (xs ++ ys) db
    = match for_each body xs db with
      | (db', Ok _) => for_each body ys db'
      | (db', Raise e) => (db', Raise e)
      end.
Proof.
  induction xs as [|x rest IH]; intros db; [done|].
  rewrite <- app_comm_cons, !for_each_cons.
  destruct (body x db) as [db1 [[]|e]]; [apply IH|done].
Qed.

Lemma sell_item_raise_unchanged (sale : Instance Sale) (line : SaleItemData)
  (db : Db) (e : error) :
  snd (sell_item sale line db) = Raise e → fst (sell_item sale line db) = db.
Proof.
  rewrite sell_item_eq.
  destruct (item_product_id line ≫= _) as [[id p]|]; [|done].
  destruct (item_sale_quantity line) as [q|]; [|done].
  by destruct (product_stock p <? q).
Qed.

(** X12. A sale stops at its first refused line: the exception of that
    line is the outcome, the database is the one the lines before it
    left (the refused line itself wrote nothing), and the lines after it
    are not looked at. *)
Theorem sale_stops_at_first_refusal (sale : Instance Sale)
  (before after : list SaleItemData) (refused : SaleItemData)
  (db db1 : Db) (e : error) :
  for_each (sell_item sale) before db = (db1, Ok tt) →
  snd (sell_item sale refused db1) = Raise e →
  for_each (sell_item sale) (before ++ refused :: after) db = (db1, Raise e).
Proof.
  intros Hbefore Hrefused. rewrite for_each_app, Hbefore, for_each_cons.
  pose proof (sell_item_raise_unchanged sale refused db1 e Hrefused) as Hsame.
  destruct (sell_item sale refused db1) as [db2 r]. simpl in *.
  by subst db2 r.
Qed.

Lemma for_each_sell_ok (sale : Instance Sale) (items : list SaleItemData) :
  ∀ db db',
    for_each (sell_item sale) items db = (db', Ok tt) →
    (∀ id, products db' !! id
           = (fun p => set_stock (product_stock p - sold items id) p)
               <$> products db !! id) ∧
    ∃ rows, sale_items db' = sale_items db ++ rows ∧
            Forall2 (records (pk sale)) items rows.
Proof.
  induction items as [|head rest IH]; intros db db'.
  { intros [= <-]. split.
    - intros id. simpl. destruct (products db !! id) as [p|]; simpl; [|done].
      by rewrite Z.sub_0_r, set_stock_same.
    - exists []. by rewrite app_nil_r. }
  rewrite for_each_cons, sell_item_eq. simpl.
  destruct (item_product_id head) as [i|] eqn:Hid; simpl; [|done].
  destruct (products db !! i) as [p|] eqn:Hp; simpl; [|done].
  destruct (item_sale_quantity head) as [q|] eqn:Hq; [|done].
  destruct (product_stock p <? q); [done|].
  intros Hloop. destruct (IH _ _ Hloop) as (Hstock & rows & Hrows & Hrec).
  split.
  - intros id. rewrite Hstock. simpl.
    destruct (decide (i = id)) as [->|Hne].
    + rewrite lookup_insert_eq, Hp, bool_decide_eq_true_2 by done. simpl.
      rewrite set_stock_set_stock. do 2 f_equal. lia.
    + rewrite lookup_insert_ne, bool_decide_eq_false_2 by done. done.
  - eexists (_ :: rows). rewrite Hrows. simpl. rewrite <- app_assoc.
    split; [done|]. constructor; [|done]. by repeat split.
Qed.

(** X13. In every sale that is created, whatever its lines (several
    lines for one product, negative quantities), each product ends with
    its stock of before minus the sum of the quantities of the lines that
    name it, and there is one stored sale item per line, in the order of
    the lines, with the product, quantity and price of the line. *)
Theorem sale_conserves_stock (validated_data : SaleData) (db db' : Db)
  (sale : Instance Sale) :
  SaleSerializer_create validated_data db = (db', Ok sale) →
  (∀ id, products db' !! id
         = (fun p => set_stock
                       (product_stock p
                        - sold (default [] (data_items validated_data)) id) p)
             <$> products db !! id) ∧
  ∃ rows, sale_items db' = sale_items db ++ rows ∧
          Forall2 (records (pk sale))
                  (default [] (data_items validated_data)) rows.
Proof.
  unfold SaleSerializer_create, and_then, Sale_objects_create.
  set (created := {| pk := next_pk (sales db) |}).
  set (db1 := set_sales _ db).
  destruct (for_each (sell_item created) _ db1) as [db2 [[]|e]] eqn:Hloop;
    [|done].
  intros [= <- <-]. by apply (for_each_sell_ok created _ db1 db2).
Qed.

(** X14. The quantity of a sale line is not checked for its sign: a
    line with a negative quantity for a stored product whose stock is not
    negative is accepted, a sale item with that negative quantity is
    stored, and the stock of the product goes up by the amount. *)
Theorem negative_quantity_adds_stock (sale : Instance Sale)
  (line : SaleItemData) (db : Db) (id q : Z) (p : Product) :
  item_product_id line = Some id →
  item_sale_quantity line = Some q →
  q < 0 →
  products db !! id = Some p →
  0 <= product_stock p →
  ∃ db', sell_item sale line db = (db', Ok tt) ∧
         product_stock <$> products db' !! id = Some (product_stock p + Z.abs q) ∧
         sale_items db'
         = sale_items db ++ [{| saleitem_sale := pk sale; saleitem_product := id;
                               saleitem_quantity := q;
                               saleitem_price := item_price line |}].
Proof.
  intros Hid Hq Hneg Hp Hstock.
  rewrite (sell_item_in_stock sale line db id q p Hid Hq Hp) by lia.
  eexists. split; [done|]. simpl. rewrite lookup_insert_eq. simpl.
  split; [f_equal; lia|done].
Qed.

Lemma sale_frame_step (sale : Instance Sale) (db : Db) (line : SaleItemData)
  (cur : Db) :
  (same_but_stock db cur ∧
   (∃ rows, sale_items cur = sale_items db ++ rows) ∧
   recipe_ingredients cur = recipe_ingredients db ∧
   orders cur = orders db ∧ order_items cur = order_items db) →
  (same_but_stock db (fst (sell_item sale line cur)) ∧
   (∃ rows, sale_items (fst (sell_item sale line cur)) = sale_items db ++ rows) ∧
   recipe_ingredients (fst (sell_item sale line cur)) = recipe_ingredients db ∧
   orders (fst (sell_item sale line cur)) = orders db ∧
   order_items (fst (sell_item sale line cur)) = order_items db).
Proof.
  intros Hcur. rewrite sell_item_eq.
  destruct (item_product_id line) as [id|]; simpl; [|done].
  destruct (products cur !! id) as [p|] eqn:Hp; simpl; [|done].
  destruct (item_sale_quantity line) as [q|]; [|done].
  destruct (product_stock p <? q); [done|]. simpl.
  destruct Hcur as (Hsame & [rows Hrows] & Hrecipes & Horders & Hitems).
  split_and!; try done.
  - intros id'. specialize (Hsame id'). simpl.
    destruct (decide (id = id')) as [->|Hne].
    + rewrite lookup_insert_eq. rewrite Hp in Hsame.
      destruct (products db !! id') as [p0|]; [|done]. by rewrite Hsame.
    + by rewrite lookup_insert_ne.
  - eexists. rewrite Hrows, <- app_assoc. done.
Qed.

(** X15. Whether a sale is created or refused, it adds and removes no
    product and changes no column of a product but its stock; the sales
    and sale items stored before are still there, the new items come
    after them, and recipes and orders are untouched. *)
Theorem sale_frame (validated_data : SaleData) (db : Db) :
  let db' := fst (SaleSerializer_create validated_data db) in
  same_but_stock db db' ∧
  (∀ id s, sales db !! id = Some s → sales db' !! id = Some s) ∧
  (∃ rows, sale_items db' = sale_items db ++ rows) ∧
  recipe_ingredients db' = recipe_ingredients db ∧
  orders db' = orders db ∧ order_items db' = order_items db.
Proof.
  unfold SaleSerializer_create, and_then, Sale_objects_create.
  set (created := {| pk := next_pk (sales db) |}).
  set (db1 := set_sales _ db).
  set (P := fun cur =>
              (same_but_stock db cur ∧
               (∃ rows, sale_items cur = sale_items db ++ rows) ∧
               recipe_ingredients cur = recipe_ingredients db ∧
               orders cur = orders db ∧ order_items cur = order_items db) ∧
              sales cur = sales db1).
  assert (P (fst (for_each (sell_item created)
                    (default [] (data_items validated_data)) db1))) as Hloop.
  { apply (for_each_invariant P); unfold P.
    - intros line cur [Hcur Hsales]. split; [by apply sale_frame_step|].
      rewrite sell_item_eq.
      destruct (item_product_id line ≫= _) as [[id p]|]; [|done].
      destruct (item_sale_quantity line) as [q|]; [|done].
      by destruct (product_stock p <? q).
    - split; [|done]. split_and!; try done.
      + exact (same_but_stock_refl db).
      + exists []. by rewrite app_nil_r. }
  unfold P in Hloop. clear P.
  destruct Hloop as ((Hsame & Hrows & Hrecipes & Horders & Hitems) & Hsales).
  assert (∀ id s, sales db !! id = Some s → sales db1 !! id = Some s) as Hkept.
  { intros id s Hs. subst db1. simpl. rewrite lookup_insert_ne; [done|].
    intros Heq. pose proof (next_pk_fresh (sales db)). congruence. }
  destruct (for_each _ _ db1) as [db2 [[]|e]]; simpl in *;
    split_and!; try done; intros id s Hs; rewrite Hsales; by apply Hkept.
Qed.

(** X16. The three ways a sale line is refused, none of which writes
    anything: a product id that is missing or names no stored product
    gives the validation error "not found" with the id; a quantity above
    the stock gives the validation error with the name, the stock and the
    quantity; a missing quantity for a stored product is not caught and
    leaves as a [TypeError]. *)
Theorem sale_line_refusals (sale : Instance Sale) (line : SaleItemData) (db : Db) :
  ((∀ id, item_product_id line = Some id → products db !! id = None) →
   sell_item sale line db
   = (db, Raise (ValidationError (ProductNotFound (item_product_id line))))) ∧
  (∀ id p q,
      item_product_id line = Some id → products db !! id = Some p →
      item_sale_quantity line = Some q → product_stock p < q →
      sell_item sale line db
      = (db, Raise (ValidationError
                      (InsufficientStock (product_name p) (product_stock p) q)))) ∧
  (∀ id p,
      item_product_id line = Some id → products db !! id = Some p →
      item_sale_quantity line = None →
      sell_item sale line db = (db, Raise TypeError)).
Proof.
  split_and!.
  - intros Hnone. rewrite sell_item_eq.
    destruct (item_product_id line) as [id|]; simpl; [|done].
    by rewrite (Hnone id eq_refl).
  - intros id p q Hid Hp Hq Hlt. rewrite sell_item_eq, Hid. simpl.
    rewrite Hp. simpl. rewrite Hq.
    by destruct (product_stock p <? q) eqn:Hcheck; [|lia].
  - intros id p Hid Hp Hq. rewrite sell_item_eq, Hid. simpl.
    rewrite Hp. simpl. by rewrite Hq.
Qed.

(** ** Order creation *)

Lemma order_lines_eq (order : Instance Order) (items : list OrderItemData) :
  ∀ total db,
    order_lines order items total db
    = (set_order_items
         (fun rows => rows ++ map (order_item_row (pk order)) items) db,
       Ok (total + spec_order_total items)).
Proof.
  induction items as [|item rest IH]; intros total db; simpl.
  - unfold ret. destruct db. unfold set_order_items. simpl.
    rewrite app_nil_r. f_equal. f_equal. lia.
  - unfold and_then, OrderItem_objects_create. rewrite IH.
    destruct db. unfold set_order_items, order_item_row. simpl.
    rewrite <- app_assoc. simpl. f_equal. f_equal. lia.
Qed.

Lemma order_create_eq (total_amount_default : Z) (validated_data : OrderData)
  (db : Db) :
  let items := default [] (data_order_items validated_data) in
  let order :=
    {| pk := next_pk (orders db);
       fields := {| order_customer_name := data_customer_name validated_data;
                    order_total_amount := spec_order_total items |} |} in
  OrderSerializer_create total_amount_default validated_data db
  = (set_orders <[pk order := fields order]>
       (set_order_items (fun rows => rows ++ map (order_item_row (pk order)) items)
          db),
     Ok order).
Proof.
  intros items order.
  unfold OrderSerializer_create, and_then, Order_objects_create, Order_save.
  rewrite order_lines_eq. simpl. fold items.
  unfold set_orders, set_order_items, set_total_amount. simpl.
  by rewrite insert_insert_eq.
Qed.

Lemma filter_order_new (order : Z) (items : list OrderItemData) :
  List.filter (fun row => orderitem_order row =? order)
              (map (order_item_row order) items)
  = map (order_item_row order) items.
Proof.
  induction items as [|item rest IH]; simpl; [done|].
  by rewrite Z.eqb_refl, IH.
Qed.

Lemma filter_order_old (order : Z) (rows : list OrderItem) :
  Forall (fun row => orderitem_order row ≠ order) rows →
  List.filter (fun row => orderitem_order row =? order) rows = [].
Proof.
  induction 1 as [|row rest Hrow _ IH]; simpl; [done|].
  by rewrite (proj2 (Z.eqb_neq _ _) Hrow).
Qed.

(** X17. On a database whose order items all belong to stored orders,
    the order read back after its creation is consistent: it shows one
    item per submitted entry, in order, each with total = quantity *
    unit_price, and its total_amount is the sum of the totals of its
    items. *)
Theorem order_read_back_consistent (total_amount_default : Z)
  (validated_data : OrderData) (db : Db) :
  order_items_resolve db →
  ∃ db' order shown,
    OrderSerializer_create total_amount_default validated_data db
    = (db', Ok order) ∧
    OrderSerializer_to_representation db' (pk order) = Some shown ∧
    repr_items shown
    = map (order_item_row (pk order)) (default [] (data_order_items validated_data)) ∧
    Forall (fun row =>
              orderitem_total row
              = orderitem_quantity row * orderitem_unit_price row)
           (repr_items shown) ∧
    repr_total_amount shown
    = foldr (fun row acc => orderitem_total row + acc) 0 (repr_items shown).
Proof.
  intros Hresolve. rewrite order_create_eq. simpl.
  set (items := default [] (data_order_items validated_data)).
  set (order := next_pk (orders db)).
  eexists _, _, _. split; [done|]. simpl.
  unfold OrderSerializer_to_representation. simpl.
  rewrite lookup_insert_eq. simpl. split; [done|]. simpl.
  rewrite List.filter_app, filter_order_new, filter_order_old.
  - simpl. split_and!; [done| |].
    + apply Forall_forall. intros row Hrow.
      apply list_elem_of_fmap in Hrow as (item & -> & _). done.
    + clear. induction items as [|item rest IH]; simpl; [done|]. by rewrite IH.
  - eapply Forall_impl; [exact Hresolve|]. intros row Hrow Heq. simpl in Hrow.
    pose proof (next_pk_fresh (orders db)) as Hfresh. fold order in Hfresh.
    rewrite Heq, Hfresh in Hrow. by destruct Hrow.
Qed.

(** X18. The total_amount submitted with an order plays no part, and
    neither does the default of the column: two payloads with the same
    customer and the same entries create the same order and leave the
    same database. *)
Theorem order_submitted_total_ignored (total_amount_default total_amount_default' : Z)
  (validated_data validated_data' : OrderData) (db : Db) :
  data_customer_name validated_data = data_customer_name validated_data' →
  data_order_items validated_data = data_order_items validated_data' →
  OrderSerializer_create total_amount_default validated_data db
  = OrderSerializer_create total_amount_default' validated_data' db.
Proof.
  intros Hname Hitems. rewrite !order_create_eq. simpl.
  by rewrite Hname, Hitems.
Qed.

(** X19. Creating an order takes nothing from any stock and checks no
    product: products, recipes, sales and sale items are left as they
    were, the orders stored before are kept, and the new order items come
    after the stored ones. It never raises. *)
Theorem order_creation_frame (total_amount_default : Z)
  (validated_data : OrderData) (db : Db) :
  ∃ db' order,
    OrderSerializer_create total_amount_default validated_data db
    = (db', Ok order) ∧
    products db' = products db ∧
    recipe_ingredients db' = recipe_ingredients db ∧
    sales db' = sales db ∧ sale_items db' = sale_items db ∧
    orders db !! pk order = None ∧
    (∀ id o, orders db !! id = Some o → orders db' !! id = Some o) ∧
    ∃ rows, order_items db' = order_items db ++ rows ∧
            length rows = length (default [] (data_order_items validated_data)).
Proof.
  rewrite order_create_eq. simpl. eexists _, _. split; [done|]. simpl.
  pose proof (next_pk_fresh (orders db)) as Hfresh.
  split_and!; try done.
  - intros id o Ho. rewrite lookup_insert_ne; [done|]. congruence.
  - eexists. split; [done|]. by rewrite length_map.
Qed.

(** ** Product update *)

Lemma update_eq (instance : Instance Product) (validated_data : ProductUpdateData)
  (db : Db) :
  let row := apply_update validated_data (fields instance) in
  ProductSerializer_update instance validated_data db
  = (set_recipe_ingredients
       (fun rows =>
          match update_recipe_ingredients validated_data with
          | Some recipe =>
              List.filter (fun r => negb (recipe_product r =? pk instance)) rows
              ++ map (recipe_link (pk instance)) recipe
          | None => rows
          end)
       (set_products <[pk instance := row]> db),
     Ok {| pk := pk instance; fields := row |}).
Proof.
  intros row. unfold ProductSerializer_update, and_then, Product_save.
  simpl. fold row.
  destruct (update_recipe_ingredients validated_data) as [recipe|].
  - unfold recipe_delete. rewrite for_each_recipe_links. by destruct db.
  - by destruct db.
Qed.

Lemma filter_recipe_new (product : Z) (recipe : list RecipeItemData) :
  List.filter (fun r => recipe_product r =? product)
              (map (recipe_link product) recipe)
  = map (recipe_link product) recipe ∧
  List.filter (fun r => negb (recipe_product r =? product))
              (map (recipe_link product) recipe) = [].
Proof.
  induction recipe as [|item rest [IH1 IH2]]; simpl; [done|].
  by rewrite Z.eqb_refl, IH1, IH2.
Qed.

Lemma filter_recipe_others (product : Z) (rows : list RecipeIngredient) :
  List.filter (fun r => recipe_product r =? product)
    (List.filter (fun r => negb (recipe_product r =? product)) rows) = [] ∧
  List.filter (fun r => negb (recipe_product r =? product))
    (List.filter (fun r => negb (recipe_product r =? product)) rows)
  = List.filter (fun r => negb (recipe_product r =? product)) rows.
Proof.
  induction rows as [|row rest [IH1 IH2]]; simpl; [done|].
  destruct (recipe_product row =? product) eqn:E; simpl; [done|].
  by rewrite E, IH1, IH2.
Qed.

(** X20. An update replaces the recipe as a whole or leaves it alone:
    without recipe_ingredients in the payload no recipe row changes; with
    them, the recipe rows of the product are afterwards exactly the
    submitted lines, in order (none when the list is empty), and the
    recipe rows of the other products are untouched. *)
Theorem update_replaces_recipe (instance : Instance Product)
  (validated_data : ProductUpdateData) (db : Db) :
  ∃ db' updated,
    ProductSerializer_update instance validated_data db = (db', Ok updated) ∧
    pk updated = pk instance ∧
    (update_recipe_ingredients validated_data = None →
     recipe_ingredients db' = recipe_ingredients db) ∧
    (∀ recipe,
        update_recipe_ingredients validated_data = Some recipe →
        recipe_of (pk instance) db' = map (recipe_link (pk instance)) recipe ∧
        recipes_but (pk instance) db' = recipes_but (pk instance) db).
Proof.
  rewrite update_eq. simpl. eexists _, _. split; [done|]. simpl.
  split_and!; [done|by intros ->|].
  intros recipe ->. unfold recipe_of, recipes_but. simpl.
  rewrite !List.filter_app.
  destruct (filter_recipe_new (pk instance) recipe) as [-> ->].
  destruct (filter_recipe_others (pk instance) (recipe_ingredients db))
    as [-> ->].
  by rewrite app_nil_r.
Qed.

(** X21. An update never raises and never deducts: it writes the row
    of the instance, with the submitted fields over the attributes the
    instance had, and no other product row, so raising the stock of a
    product with a recipe takes nothing from its ingredients; sales
    and orders are untouched. *)
Theorem update_deducts_nothing (instance : Instance Product)
  (validated_data : ProductUpdateData) (db : Db) :
  ∃ db' updated,
    ProductSerializer_update instance validated_data db = (db', Ok updated) ∧
    products db' !! pk instance = Some (fields updated) ∧
    product_stock (fields updated)
    = default (product_stock (fields instance)) (update_stock validated_data) ∧
    (∀ id, id ≠ pk instance → products db' !! id = products db !! id) ∧
    sales db' = sales db ∧ sale_items db' = sale_items db ∧
    orders db' = orders db ∧ order_items db' = order_items db.
Proof.
  rewrite update_eq. simpl. eexists _, _. split; [done|]. simpl.
  split_and!; try done.
  - apply lookup_insert_eq.
  - intros id Hne. by rewrite lookup_insert_ne.
Qed.

(** X22. Updating again with the same payload changes nothing more:
    the second update returns the same instance and leaves the database
    of the first. *)
Theorem update_idempotent (instance : Instance Product)
  (validated_data : ProductUpdateData) (db db' : Db)
  (updated : Instance Product) :
  ProductSerializer_update instance validated_data db = (db', Ok updated) →
  ProductSerializer_update updated validated_data db' = (db', Ok updated).
Proof.
  rewrite update_eq. simpl. intros [= <- <-]. rewrite update_eq. simpl.
  assert (apply_update validated_data (apply_update validated_data (fields instance))
          = apply_update validated_data (fields instance)) as ->.
  { unfold apply_update. simpl.
    destruct (update_name validated_data), (update_price validated_data),
      (update_stock validated_data),
      (update_low_stock_threshold validated_data),
      (update_is_ingredient validated_data); done. }
  f_equal. unfold set_recipe_ingredients, set_products. simpl.
  rewrite insert_insert_eq. f_equal.
  destruct (update_recipe_ingredients validated_data) as [recipe|]; [|done].
  rewrite List.filter_app.
  destruct (filter_recipe_new (pk instance) recipe) as [_ ->].
  destruct (filter_recipe_others (pk instance) (recipe_ingredients db))
    as [_ ->].
  by rewrite app_nil_r.
Qed.

(** * The further properties at concrete inputs *)

Lemma purchase_total_needs_objects_witness :
  get_total {| purchase_items := VList (purchase_lines ++ [VInt 3]);
               purchase_total_amount := VInt 7 |}
  = Raise AttributeError.
Proof.
  apply (purchase_total_needs_objects
           {| purchase_items := VList (purchase_lines ++ [VInt 3]);
              purchase_total_amount := VInt 7 |}
           (purchase_lines ++ [VInt 3]) eq_refl).
  apply Exists_cons_tl, Exists_cons_tl, Exists_cons_hd. reflexivity.
Defined.



Lemma purchase_total_nan_witness :
  get_total
    {| purchase_items :=
         VList (purchase_lines
                ++ VDict [("quantity", VStr "NaN"); ("price", VInt 1)]%string
                   :: [zero_quantity_line]);
       purchase_total_amount := VNone |}
  = Ok (VDec (Dec.NaN false)).
Proof.
  apply (purchase_total_nan VNone purchase_lines [zero_quantity_line]
           [("quantity", VStr "NaN"); ("price", VInt 1)]%string (Dec.Fin 1 0)).
  - constructor; [|constructor; [|constructor]];
      (eexists; split; [reflexivity|]; split; vm_compute; done).
  - constructor; [reflexivity|constructor].
  - reflexivity.
  - reflexivity.
  - reflexivity.
Defined.

Lemma inventory_validate_idempotent_witness :
  validate (VStr "Entrada")
    [("type", VStr "Salida"); ("quantity", VDec (Dec.Fin 25 (-1)))]%string
  = Ok [("type", VStr "Salida"); ("quantity", VDec (Dec.Fin 25 (-1)))]%string.
Proof.
  apply (inventory_validate_idempotent VNone (VStr "Entrada") salida_attrs).
  reflexivity.
Defined.

Lemma inventory_validate_quantity_only_witness :
  match validate VNone salida_attrs,
        validate (VStr "Entrada") [("quantity", VStr "-2.5")]%string with
  | Ok out, Ok out' => dict_get out "quantity" = dict_get out' "quantity"
  | Raise e, Raise e' => e = e'
  | _, _ => False
  end.
Proof.
  apply (inventory_validate_quantity_only VNone (VStr "Entrada") salida_attrs
           [("quantity", VStr "-2.5")]%string).
  reflexivity.
Defined.

Lemma inventory_validate_output_witness :
  dict_get [("type", VStr "Salida"); ("quantity", VDec (Dec.Fin 25 (-1)))]%string
           "type"
  = dict_get salida_attrs "type".
Proof.
  apply (proj2 (inventory_validate_output VNone salida_attrs
                  [("type", VStr "Salida");
                   ("quantity", VDec (Dec.Fin 25 (-1)))]%string eq_refl)).
  discriminate.
Defined.

Lemma validate_name_normal_form_witness :
  validate_name "Torta" = Ok "Torta"%string.
Proof.
  apply (validate_name_normal_form " Torta " "Torta"). reflexivity.
Defined.

Lemma validators_accept_iff_witness : valid_payload torta_data.
Proof.
  apply (proj1 (validators_accept_iff torta_data
                  {| data_name := "Torta"; data_price := 9; data_stock := Some 3;
                     data_low_stock_threshold := 0; data_is_ingredient := false;
                     data_recipe_ingredients := data_recipe_ingredients torta_data |})).
  reflexivity.
Defined.

Lemma creation_succeeds_iff_witness :
  ¬ ∃ db' product,
      ProductSerializer_create 0 doble_data shop = (db', Ok product).
Proof.
  intros Hcreated.
  apply (creation_succeeds_iff 0 doble_data shop
           (default [] (data_recipe_ingredients doble_data)) 1) in Hcreated.
  - specialize (Hcreated 1 harina eq_refl). vm_compute in Hcreated.
    by apply Hcreated.
  - reflexivity.
  - reflexivity.
  - lia.
  - unfold stock_nonneg. compute_done.
  - constructor; [|constructor; [|constructor]];
      intros ing [= <-]; vm_compute; by eexists.
Defined.

Lemma sale_stops_at_first_refusal_witness :
  ∃ db1,
    product_stock <$> products db1 !! 1 = Some 8 ∧
    for_each (sell_item {| pk := 1; fields := {| sale_total_amount := 21;
                                                 sale_payment_method := "efectivo" |} |})
      (default [] (data_items sale_two_lines) ++ [return_line]) shop
    = (db1, Raise (ValidationError (InsufficientStock "Sal" 0 1))).
Proof.
  set (sale := {| pk := 1; fields := {| sale_total_amount := 21;
                                        sale_payment_method := "efectivo" |} |}).
  set (line1 := {| item_product_id := Some 1; item_sale_quantity := Some 2;
                   item_price := Some 7 |}).
  set (line2 := {| item_product_id := Some 2; item_sale_quantity := Some 1;
                   item_price := Some 7 |}).
  exists (fst (for_each (sell_item sale) [line1] shop)).
  split; [reflexivity|].
  apply (sale_stops_at_first_refusal sale [line1] [return_line] line2 shop).
  - reflexivity.
  - reflexivity.
Defined.

Lemma sale_conserves_stock_witness :
  product_stock
    <$> products (fst (SaleSerializer_create sale_same_product shop)) !! 1
  = Some 3.
Proof.
  destruct (sale_conserves_stock sale_same_product shop
              (fst (SaleSerializer_create sale_same_product shop))
              {| pk := 1; fields := {| sale_total_amount := 35;
                                       sale_payment_method := "tarjeta" |} |})
    as [Hstock _].
  - reflexivity.
  - rewrite Hstock. reflexivity.
Defined.

Lemma negative_quantity_adds_stock_witness :
  ∃ db',
    sell_item {| pk := 1; fields := {| sale_total_amount := 0;
                                       sale_payment_method := "efectivo" |} |}
      return_line shop = (db', Ok tt) ∧
    product_stock <$> products db' !! 2 = Some 2.
Proof.
  destruct (negative_quantity_adds_stock
              {| pk := 1; fields := {| sale_total_amount := 0;
                                       sale_payment_method := "efectivo" |} |}
              return_line shop 2 (-2) sal)
    as (db' & Hsell & Hstock & _).
  - reflexivity.
  - reflexivity.
  - lia.
  - reflexivity.
  - simpl. lia.
  - exists db'. by split.
Defined.

Lemma sale_line_refusals_witness :
  sell_item {| pk := 1; fields := {| sale_total_amount := 0;
                                     sale_payment_method := "efectivo" |} |}
    {| item_product_id := Some 2; item_sale_quantity := None;
       item_price := Some 3 |} shop
  = (shop, Raise TypeError).
Proof.
  apply (proj2 (proj2 (sale_line_refusals _ _ shop)) 2 sal).
  - reflexivity.
  - reflexivity.
  - reflexivity.
Defined.

Lemma order_read_back_consistent_witness :
  ∃ db' order shown,
    OrderSerializer_create 0 order_example empty_db = (db', Ok order) ∧
    OrderSerializer_to_representation db' (pk order) = Some shown ∧
    repr_total_amount shown = 40 ∧
    orderitem_total <$> repr_items shown = [30; 10].
Proof.
  destruct (order_read_back_consistent 0 order_example empty_db)
    as (db' & order & shown & Hcreate & Hshown & Hitems & _ & Htotal).
  - constructor.
  - exists db', order, shown. split_and!; [done|done| |].
    + rewrite Htotal, Hitems. reflexivity.
    + rewrite Hitems. reflexivity.
Defined.

Lemma order_submitted_total_ignored_witness :
  OrderSerializer_create 0 order_example empty_db
  = OrderSerializer_create 5
      {| data_customer_name := "Ana"; data_order_total_amount := Some 999;
         data_order_items := Some order_entries |} empty_db.
Proof.
  apply order_submitted_total_ignored; reflexivity.
Defined.

Lemma update_replaces_recipe_witness :
  ∃ db',
    fst (ProductSerializer_update {| pk := 1; fields := harina |} restock shop) = db' ∧
    length (recipe_of 1 db') = 1%nat ∧ recipes_but 1 db' = [].
Proof.
  destruct (update_replaces_recipe {| pk := 1; fields := harina |} restock shop)
    as (db' & updated & Hupdate & _ & _ & Hrecipe).
  destruct (Hrecipe _ eq_refl) as [Hof Hbut]. simpl in Hof, Hbut.
  exists db'. rewrite Hupdate. simpl. split_and!; [done| |].
  - by rewrite Hof.
  - by rewrite Hbut.
Defined.

Lemma update_idempotent_witness :
  ProductSerializer_update
    {| pk := 1; fields := set_stock 50 harina |} restock
    (fst (ProductSerializer_update {| pk := 1; fields := harina |} restock shop))
  = (fst (ProductSerializer_update {| pk := 1; fields := harina |} restock shop),
     Ok {| pk := 1; fields := set_stock 50 harina |}).
Proof.
  apply (update_idempotent {| pk := 1; fields := harina |} restock shop).
  reflexivity.
Defined.
